(** * wp-download: a shallow embedding of the download engine

    The development follows [wp_download/download.py] and
    [wp_download/config.py] (Python 2).  Python [str] values are Rocq
    strings, Python integers are [Z], the exceptions that the code raises or
    meets are the constructors of [exn], and the stateful code (file system,
    network, logger) lives in a state-and-exception monad [M] over a
    [World]. *)

From Stdlib Require Import ZArith String Ascii List Bool Lia DecimalString
  DecimalPos.
From stdpp Require Import base tactics option list strings gmap sorting.
Import ListNotations.

Local Open Scope Z_scope.
Local Open Scope string_scope.

#[local] Arguments String.append : simpl nomatch.

(** ** Exceptions *)

(** The exception classes that occur in the two modules.  In Python 2
    [socket.error] is a subclass of [IOError], while [OSError] is a sibling
    of [IOError] (both derive from [EnvironmentError]). *)
Inductive exn : Type :=
| IOError (msg : string)
| socket_error (msg : string)
| OSError (msg : string)
| ValueError (msg : string)
| KeyError (key : string)
| AttributeError (msg : string)
| UnboundLocalError (name : string)
| NoSectionError (section : string)
| NoOptionError (option section : string)
| ConfigValueError (config_file section : string)
| TemplateMissingError (config_file template : string)
| DownloadError (args : list string).

(** [isinstance(e, socket.error)] *)
Definition is_socket_error (e : exn) : bool :=
  match e with socket_error _ => true | _ => false end.

(** [isinstance(e, IOError)] *)
Definition is_IOError (e : exn) : bool :=
  match e with IOError _ | socket_error _ => true | _ => false end.

(** [isinstance(e, wpd_exc.DownloadError)] *)
Definition is_DownloadError (e : exn) : bool :=
  match e with DownloadError _ => true | _ => false end.

(** [isinstance(e, ValueError)] *)
Definition is_ValueError (e : exn) : bool :=
  match e with ValueError _ => true | _ => false end.

(** Result of running a piece of Python code: a value, a raised exception,
    or [OutOfFuel] when the bound put on the [while True] loop of
    [retrieve_file] is exhausted. *)
Inductive Outcome (A : Type) : Type :=
| Ok (a : A)
| Raise (e : exn)
| OutOfFuel.
Arguments Ok {A} a.
Arguments Raise {A} e.
Arguments OutOfFuel {A}.

Definition obind {A B} (o : Outcome A) (k : A -> Outcome B) : Outcome B :=
  match o with
  | Ok a => k a
  | Raise e => Raise e
  | OutOfFuel => OutOfFuel
  end.

Notation "'let?' x ':=' o 'in' k" := (obind o (fun x => k))
  (at level 10, x name, o at level 100, k at level 200).

(** ** Python [str] helpers *)

Definition str_len (s : string) : Z := Z.of_nat (String.length s).

Fixpoint str_drop (n : nat) (s : string) : string :=
  match n, s with
  | O, _ => s
  | S n', String _ s' => str_drop n' s'
  | S _, EmptyString => EmptyString
  end.

Fixpoint str_take (n : nat) (s : string) : string :=
  match n, s with
  | O, _ => EmptyString
  | S n', String c s' => String c (str_take n' s')
  | S _, EmptyString => EmptyString
  end.

(** [s[i:j]] for [0 <= i], [0 <= j]. *)
Definition slice (s : string) (i j : Z) : string :=
  str_take (Z.to_nat (j - i)) (str_drop (Z.to_nat i) s).

(** [s[i:]] for [0 <= i]. *)
Definition slice_from (s : string) (i : Z) : string :=
  str_drop (Z.to_nat i) s.

Fixpoint rfind_aux (c : ascii) (s : string) (i best : Z) : Z :=
  match s with
  | EmptyString => best
  | String a s' => rfind_aux c s' (i + 1) (if Ascii.eqb a c then i else best)
  end.

(** [s.rfind(c)]: index of the last occurrence of [c], or [-1]. *)
Definition rfind (c : ascii) (s : string) : Z := rfind_aux c s 0 (-1).

Definition startswith (s p : string) : bool := String.prefix p s.

Fixpoint endswith_slash (s : string) : bool :=
  match s with
  | EmptyString => false
  | String c EmptyString => Ascii.eqb c "/"
  | String _ s' => endswith_slash s'
  end.

Fixpoint str_all (f : ascii -> bool) (s : string) : bool :=
  match s with
  | EmptyString => true
  | String c s' => f c && str_all f s'
  end.

Fixpoint contains (c : ascii) (s : string) : bool :=
  match s with
  | EmptyString => false
  | String a s' => Ascii.eqb a c || contains c s'
  end.

(** [sep.join(parts)] *)
Fixpoint str_join (sep : string) (parts : list string) : string :=
  match parts with
  | [] => ""
  | [p] => p
  | p :: rest => p ++ sep ++ str_join sep rest
  end.

Definition is_upper (c : ascii) : bool :=
  let n := N_of_ascii c in (65 <=? n)%N && (n <=? 90)%N.

Definition lower_char (c : ascii) : ascii :=
  if is_upper c then ascii_of_N (N_of_ascii c + 32) else c.

(** [s.lower()] *)
Fixpoint lower (s : string) : string :=
  match s with
  | EmptyString => EmptyString
  | String c s' => String (lower_char c) (lower s')
  end.

Definition is_digit (c : ascii) : bool :=
  let n := N_of_ascii c in (48 <=? n)%N && (n <=? 57)%N.

Definition digit_val (c : ascii) : Z := Z.of_N (N_of_ascii c) - 48.

Definition is_space (c : ascii) : bool :=
  let n := N_of_ascii c in (n =? 32)%N || ((9 <=? n)%N && (n <=? 13)%N).

Fixpoint lstrip (s : string) : string :=
  match s with
  | String c s' => if is_space c then lstrip s' else s
  | EmptyString => EmptyString
  end.

Fixpoint rstrip (s : string) : string :=
  match s with
  | EmptyString => EmptyString
  | String c s' =>
      let r := rstrip s' in
      if is_space c && String.eqb r "" then "" else String c r
  end.

Fixpoint digits_value (acc : Z) (s : string) : option Z :=
  match s with
  | EmptyString => Some acc
  | String c s' =>
      if is_digit c then digits_value (10 * acc + digit_val c) s' else None
  end.

(** [int(s)] on a [str]: surrounding white space is dropped, one sign is
    allowed, and at least one decimal digit must follow. *)
Definition py_int (s : string) : Outcome Z :=
  let t := rstrip (lstrip s) in
  let '(sign, ds) :=
    match t with
    | String "-" r => (-1, r)
    | String "+" r => (1, r)
    | _ => (1, t)
    end in
  match ds with
  | EmptyString => Raise (ValueError "invalid literal for int() with base 10")
  | _ =>
      match digits_value 0 ds with
      | Some v => Ok (sign * v)
      | None => Raise (ValueError "invalid literal for int() with base 10")
      end
  end.

(** Decimal rendering of a non-negative integer ([%d] / [%s]). *)
Definition str_of_Z (z : Z) : string :=
  NilEmpty.string_of_uint (N.to_uint (Z.to_N z)).

(** ** [os.path] (posixpath) *)

(** [os.path.basename(p)]: [i = p.rfind('/') + 1; return p[i:]]. *)
Definition basename (p : string) : string := slice_from p (rfind "/" p + 1).

Definition join2 (path b : string) : string :=
  if startswith b "/" then b
  else if String.eqb path "" || endswith_slash path then path ++ b
  else path ++ "/" ++ b.

(** [os.path.join(a, *p)] *)
Definition os_path_join (a : string) (p : list string) : string :=
  fold_left join2 p a.

Definition is_dot (c : ascii) : bool := Ascii.eqb c ".".

(** [os.path.splitext(p)] ([genericpath._splitext] with [sep = '/'],
    [extsep = '.']): the extension starts at the last dot of the last
    component, unless that component consists of leading dots only up to
    that dot. *)
Definition splitext (p : string) : string * string :=
  let sepIndex := rfind "/" p in
  let dotIndex := rfind "." p in
  if (sepIndex <? dotIndex)%Z
     && negb (str_all is_dot (slice p (sepIndex + 1) dotIndex))
  then (slice p 0 dotIndex, slice_from p dotIndex)
  else (p, "").

(** ** [datetime] *)

(** A [datetime.datetime] built by [strptime(_, '%Y%m%d')]: the time of day
    is always midnight and is left out. *)
Record datetime : Type := mkdate { year : Z; month : Z; day : Z }.

(** [a < b] on datetimes: chronological, i.e. lexicographic on
    (year, month, day). *)
Definition datetime_ltb (a b : datetime) : bool :=
  (year a <? year b)%Z
  || ((year a =? year b)%Z
      && ((month a <? month b)%Z
          || ((month a =? month b)%Z && (day a <? day b)%Z))).

Definition datetime_le (a b : datetime) : Prop := datetime_ltb b a = false.

(** [max(l)] on a non-empty list [x :: l]: the running maximum is replaced
    only by a strictly greater item. *)
Definition py_max (x : datetime) (l : list datetime) : datetime :=
  fold_left (fun m y => if datetime_ltb m y then y else m) l x.

(** [max(l)] on any list. *)
Definition py_max_list (l : list datetime) : Outcome datetime :=
  match l with
  | [] => Raise (ValueError "max() arg is an empty sequence")
  | x :: l' => Ok (py_max x l')
  end.

Definition is_leap (y : Z) : bool :=
  ((y mod 4 =? 0)%Z && negb (y mod 100 =? 0)%Z) || (y mod 400 =? 0)%Z.

Definition days_in_month (y m : Z) : Z :=
  if (m =? 2)%Z then (if is_leap y then 29 else 28)
  else if (m =? 4)%Z || (m =? 6)%Z || (m =? 9)%Z || (m =? 11)%Z then 30
  else 31.

(** Regex pieces of [_strptime]: each returns the ways the piece matches a
    prefix of [s], in the order in which the alternatives are tried. *)
Definition two_digits (p : Z -> Z -> bool) (s : string) : list (Z * string) :=
  match s with
  | String a (String b r) =>
      if is_digit a && is_digit b && p (digit_val a) (digit_val b)
      then [(10 * digit_val a + digit_val b, r)] else []
  | _ => []
  end.

Definition one_digit (s : string) : list (Z * string) :=
  match s with
  | String a r =>
      if is_digit a && (1 <=? digit_val a)%Z then [(digit_val a, r)] else []
  | _ => []
  end.

Definition space_digit (s : string) : list (Z * string) :=
  match s with
  | String " " r => one_digit r
  | _ => []
  end.

(** [%Y]: [\d\d\d\d] *)
Definition match_Y (s : string) : list (Z * string) :=
  match s with
  | String a (String b (String c (String d r))) =>
      if is_digit a && is_digit b && is_digit c && is_digit d
      then [(1000 * digit_val a + 100 * digit_val b
             + 10 * digit_val c + digit_val d, r)]
      else []
  | _ => []
  end.

(** [%m]: [1[0-2]|0[1-9]|[1-9]] *)
Definition match_m (s : string) : list (Z * string) :=
  two_digits (fun a b => (a =? 1)%Z && (b <=? 2)%Z) s
  ++ two_digits (fun a b => (a =? 0)%Z && (1 <=? b)%Z) s
  ++ one_digit s.

(** [%d]: [3[01]|[12]\d|0[1-9]|[1-9]| [1-9]] *)
Definition match_d (s : string) : list (Z * string) :=
  two_digits (fun a b => (a =? 3)%Z && (b <=? 1)%Z) s
  ++ two_digits (fun a b => (a =? 1)%Z || (a =? 2)%Z) s
  ++ two_digits (fun a b => (a =? 0)%Z && (1 <=? b)%Z) s
  ++ one_digit s
  ++ space_digit s.

(** [datetime.datetime.strptime(s, '%Y%m%d')]: the first way the format's
    regular expression matches a prefix of [s] is taken; left-over text,
    year 0 or a day the month does not have give [ValueError]. *)
Definition strptime (s : string) : Outcome datetime :=
  let ms :=
    flat_map (fun '(y, r1) =>
      flat_map (fun '(m, r2) =>
        List.map (fun '(d, r3) => (mkdate y m d, r3)) (match_d r2))
        (match_m r1))
      (match_Y s) in
  match ms with
  | [] => Raise (ValueError "time data does not match format '%Y%m%d'")
  | (dt, rest) :: _ =>
      if negb (String.eqb rest "")
      then Raise (ValueError "unconverted data remains")
      else if (year dt <? 1)%Z
      then Raise (ValueError "year is out of range")
      else if (days_in_month (year dt) (month dt) <? day dt)%Z
      then Raise (ValueError "day is out of range for month")
      else Ok dt
  end.

Definition pad2 (z : Z) : string :=
  if (z <? 10)%Z then "0" ++ str_of_Z z else str_of_Z z.

(** [d.strftime('%Y%m%d')]; Python 2 refuses years before 1900. *)
Definition strftime_Ymd (d : datetime) : Outcome string :=
  if (year d <? 1900)%Z
  then Raise (ValueError "the datetime strftime() methods require year >= 1900")
  else Ok (str_of_Z (year d) ++ pad2 (month d) ++ pad2 (day d)).

(** The sentinel appended by [latest_dump_date]:
    [strptime('19000101', '%Y%m%d')]. *)
Definition sentinel_date : datetime := mkdate 1900 1 1.

(** ** The date matcher: an anchor whose href is eight digits and a slash,
    followed by [.*] and the literal [/</a>] *)

Fixpoint up_to_newline (s : string) : string :=
  match s with
  | EmptyString => EmptyString
  | String c s' => if Ascii.eqb c "010" then EmptyString else String c (up_to_newline s')
  end.

(** End position (relative to the start of [s], counting from [pos]) of the
    last occurrence of [needle] in [s], if any: where the greedy [.*]
    followed by the literal [needle] stops. *)
Fixpoint last_end (needle s : string) (pos : nat) (best : option nat) : option nat :=
  match s with
  | EmptyString => best
  | String _ s' =>
      last_end needle s' (S pos)
        (if String.prefix needle s then Some (pos + String.length needle)%nat else best)
  end.

Definition dquote : string := String "034" "".

(** The literal pieces of the pattern around the group: [<a href=] with the
    opening quote (9 characters) and [/], the closing quote, [>]
    (3 characters). *)
Definition anchor_open : string := "<a href=" ++ dquote.
Definition anchor_mid : string := "/" ++ dquote ++ ">".

(** One match attempt of the pattern at the start of [s]: the group and the
    length of the whole match. *)
Definition match_here (s : string) : option (string * nat) :=
  if String.prefix anchor_open s then
    let r := str_drop 9 s in
    let tok := str_take 8 r in
    if (String.length tok =? 8)%nat && str_all is_digit tok
       && String.prefix anchor_mid (str_drop 8 r)
    then
      match last_end "/</a>" (up_to_newline (str_drop 11 r)) 0 None with
      | Some n => Some (tok, (20 + n)%nat)
      | None => None
      end
    else None
  else None.

(** [findall]: matches are searched left to right and do not overlap;
    [skip] counts the characters of the current match still to pass. *)
Fixpoint findall_from (skip : nat) (s : string) : list string :=
  match s with
  | EmptyString => []
  | String _ s' =>
      match skip with
      | S k => findall_from k s'
      | O =>
          match match_here s with
          | Some (tok, len) => tok :: findall_from (Nat.pred len) s'
          | None => findall_from 0 s'
          end
      end
  end.

(** [self._date_matcher.findall(page)] *)
Definition date_matcher_findall (page : string) : list string :=
  findall_from 0 page.

(** ** [string.Template] *)

Definition is_id_start (c : ascii) : bool :=
  let n := N_of_ascii c in
  Ascii.eqb c "_" || ((97 <=? n)%N && (n <=? 122)%N) || is_upper c.

Definition is_id_char (c : ascii) : bool := is_id_start c || is_digit c.

Fixpoint assoc {V} (k : string) (l : list (string * V)) : option V :=
  match l with
  | [] => None
  | (k', v) :: l' => if String.eqb k' k then Some v else assoc k l'
  end.

Inductive tstate : Type :=
| TText
| TDelim
| TNamed (name : string)
| TBraced (name : string).

Definition tlookup (mapping : list (string * string)) (name : string)
  : Outcome string :=
  match assoc name mapping with
  | Some v => Ok v
  | None => Raise (KeyError name)
  end.

Definition invalid_placeholder : Outcome string :=
  Raise (ValueError "Invalid placeholder in string").

(** [string.Template(tpl).substitute(...)] with keyword arguments
    [mapping], as a scanner over the
    template: [$$] is a dollar, [$name] and [${name}] are looked up
    ([KeyError] when absent), any other use of [$] is a [ValueError]. *)
Fixpoint substitute_from (mapping : list (string * string)) (st : tstate)
  (tpl : string) : Outcome string :=
  match tpl with
  | EmptyString =>
      match st with
      | TText => Ok ""
      | TDelim => invalid_placeholder
      | TNamed name => tlookup mapping name
      | TBraced _ => invalid_placeholder
      end
  | String c rest =>
      match st with
      | TText =>
          if Ascii.eqb c "$" then substitute_from mapping TDelim rest
          else let? r := substitute_from mapping TText rest in Ok (String c r)
      | TDelim =>
          if Ascii.eqb c "$"
          then let? r := substitute_from mapping TText rest in Ok (String "$" r)
          else if is_id_start c
          then substitute_from mapping (TNamed (String c "")) rest
          else if Ascii.eqb c "{"
          then substitute_from mapping (TBraced "") rest
          else invalid_placeholder
      | TNamed name =>
          if is_id_char c
          then substitute_from mapping (TNamed (name ++ String c "")) rest
          else
            let? v := tlookup mapping name in
            let? r := (if Ascii.eqb c "$"
                       then substitute_from mapping TDelim rest
                       else let? r := substitute_from mapping TText rest in
                            Ok (String c r)) in
            Ok (v ++ r)
      | TBraced name =>
          if Ascii.eqb c "}"
          then
            if String.eqb name "" then invalid_placeholder
            else
              let? v := tlookup mapping name in
              let? r := substitute_from mapping TText rest in
              Ok (v ++ r)
          else if (if String.eqb name "" then is_id_start c else is_id_char c)
          then substitute_from mapping (TBraced (name ++ String c "")) rest
          else invalid_placeholder
      end
  end.

Definition substitute (tpl : string) (mapping : list (string * string))
  : Outcome string :=
  substitute_from mapping TText tpl.

(** ** [urlparse] *)

Record SplitResult : Type := mkSplit {
  scheme : string; netloc : string; url_path : string;
  query : string; fragment : string }.

(** The two URL routines whose text is not part of the program and on whose
    details no statement below depends: [urlparse.urlsplit] and
    [urllib.basejoin] (an alias of [urlparse.urljoin]). *)
Class UrlLib : Type := {
  urlsplit : string -> SplitResult;
  basejoin : string -> string -> string }.

Definition uses_netloc : list string :=
  ["ftp"; "http"; "gopher"; "nntp"; "telnet"; "imap"; "wais"; "file"; "mms";
   "https"; "shttp"; "snews"; "prospero"; "rtsp"; "rtspu"; "rsync"; "";
   "svn"; "svn+ssh"; "sftp"; "nfs"; "git"; "git+ssh"].

Definition nonempty (s : string) : bool := negb (String.eqb s "").

(** [urlparse.urlunsplit((scheme, netloc, url, query, fragment))] *)
Definition urlunsplit (scheme netloc url query fragment : string) : string :=
  let url :=
    if nonempty netloc
       || (nonempty scheme && existsb (String.eqb scheme) uses_netloc
           && negb (String.eqb (str_take 2 url) "//"))
    then
      let url := if nonempty url && negb (String.eqb (str_take 1 url) "/")
                 then "/" ++ url else url in
      "//" ++ netloc ++ url
    else url in
  let url := if nonempty scheme then scheme ++ ":" ++ url else url in
  let url := if nonempty query then url ++ "?" ++ query else url in
  if nonempty fragment then url ++ "#" ++ fragment else url.

(** ** [config.Configuration] *)

(** The parsed configuration file: sections in file order, each with its
    options in file order (option names as [optionxform] stored them) and
    their values after interpolation.  No [DEFAULT] section. *)
Record Configuration : Type := mkConfig {
  config_file_path : string;
  sections : list (string * list (string * string)) }.

(** [ConfigParser.options(section)] *)
Definition options (self : Configuration) (section : string)
  : Outcome (list string) :=
  match assoc section (sections self) with
  | None => Raise (NoSectionError section)
  | Some opts => Ok (List.map fst opts)
  end.

(** [ConfigParser.get(section, option)] *)
Definition get (self : Configuration) (section option : string)
  : Outcome string :=
  match assoc section (sections self) with
  | None => Raise (NoSectionError section)
  | Some opts =>
      match assoc (lower option) opts with
      | None => Raise (NoOptionError option section)
      | Some v => Ok v
      end
  end.

(** [ConfigParser.getboolean(section, option)] *)
Definition getboolean (self : Configuration) (section option : string)
  : Outcome bool :=
  let? v := get self section option in
  let v := lower v in
  if existsb (String.eqb v) ["1"; "yes"; "true"; "on"] then Ok true
  else if existsb (String.eqb v) ["0"; "no"; "false"; "off"] then Ok false
  else Raise (ValueError ("Not a boolean: " ++ v)).

(** The inner generator [_enabled_options] of [enabled_options], run over
    the option names [opts]: a [ValueError] becomes a [ConfigValueError]. *)
Fixpoint _enabled_options (self : Configuration) (section : string)
  (opts : list string) : Outcome (list string) :=
  match opts with
  | [] => Ok []
  | opt :: rest =>
      match getboolean self section opt with
      | Ok b =>
          let? l := _enabled_options self section rest in
          Ok (if b then opt :: l else l)
      | Raise e =>
          if is_ValueError e
          then Raise (ConfigValueError (config_file_path self) section)
          else Raise e
      | OutOfFuel => OutOfFuel
      end
  end.


(** [sorted(l)] on a list of [str]: ascending byte-wise order. *)
Definition sorted (l : list string) : list string := merge_sort String.le l.

(** [Configuration.enabled_options(section)] *)
Definition enabled_options (self : Configuration) (section : string)
  : Outcome (list string) :=
  let? opts := options self section in
  let? l := _enabled_options self section opts in
  Ok (sorted l).

(** [Configuration.string_template(template_name)]: the text of the
    template. *)
Definition string_template (self : Configuration) (template_name : string)
  : Outcome string :=
  match get self "Templates" template_name with
  | Raise (NoOptionError _ _) =>
      Raise (TemplateMissingError (config_file_path self) template_name)
  | o => o
  end.

Definition enabled_files (self : Configuration) : Outcome (list string) :=
  enabled_options self "Files".

Definition enabled_languages (self : Configuration) : Outcome (list string) :=
  enabled_options self "Languages".

(** ** The world: file system, remote side, logger *)

Inductive node : Type :=
| RegFile (data : string)
| Directory (st_size : Z).

(** A request: the URL and the offset of the [Range: bytes=<offset>-]
    header when one was added. *)
Record Request : Type := mkReq { req_url : string; req_range : option Z }.

(** What [opener.open(url)] returns for an HTTP URL: status, the
    [Content-Length] header if present, the body the server sends on this
    connection, and possibly a fault: [(n, e)] makes the [n+1]-th block
    read raise [e]. *)
Record Response : Type := mkResp {
  getcode : Z;
  content_length_header : option string;
  body : string;
  read_fault : option (nat * exn) }.

Inductive Level : Type := DEBUG | INFO | ERROR.

Inductive LogArg : Type :=
| AStr (s : string)
| AExn (e : exn)
| ATime (fmt : string) (d : datetime).

(** A logging call: level, format string and its arguments. *)
Record LogRecord : Type := mkLog {
  levelname : Level; logmsg : string; logargs : list LogArg }.

(** - [fs]: the nodes of the local file system by path, all of them
      open to the process for reading and writing; paths are taken as
      they are written, without resolving [.], [..] or doubled slashes;
    - [refused]: directories the operating system refuses to create;
    - [net]: the remote side, asked with the number of connections opened
      before and the request; [inl e] is a failure to connect;
    - [conns]: connections opened so far;
    - [log]: the records handed to [LOG], oldest first. *)
Record World : Type := mkWorld {
  fs : gmap string node;
  refused : gset string;
  net : nat -> Request -> exn + Response;
  conns : nat;
  log : list LogRecord }.

Definition set_fs (f : gmap string node -> gmap string node) (w : World) : World :=
  mkWorld (f (fs w)) (refused w) (net w) (conns w) (log w).

Definition M (A : Type) : Type := World -> Outcome A * World.

Definition ret {A} (a : A) : M A := fun w => (Ok a, w).

Definition raise {A} (e : exn) : M A := fun w => (Raise e, w).

Definition lift {A} (o : Outcome A) : M A := fun w => (o, w).

Definition bind {A B} (m : M A) (k : A -> M B) : M B := fun w =>
  match m w with
  | (Ok a, w') => k a w'
  | (Raise e, w') => (Raise e, w')
  | (OutOfFuel, w') => (OutOfFuel, w')
  end.

Notation "'do' x '<-' m ';' k" := (bind m (fun x => k))
  (at level 10, x name, m at level 100, k at level 200).
Notation "m ';;' k" := (bind m (fun _ => k))
  (at level 100, k at level 200, right associativity).

(** [try: body  except ...: handler]: [handler e] is [None] when no
    [except] clause matches [e]. *)
Definition try_except {A} (body : M A) (handler : exn -> option (M A)) : M A :=
  fun w =>
  match body w with
  | (Raise e, w') =>
      match handler e with
      | Some h => h w'
      | None => (Raise e, w')
      end
  | r => r
  end.

Definition LOG (lvl : Level) (msg : string) (args : list LogArg) : M unit :=
  fun w => (Ok tt, mkWorld (fs w) (refused w) (net w) (conns w)
                     (log w ++ [mkLog lvl msg args])).

(** [opener.open(url)] with the given extra [Range] header. *)
Definition urlopen (req : Request) : M Response := fun w =>
  let w' := mkWorld (fs w) (refused w) (net w) (S (conns w)) (log w) in
  match net w (conns w) req with
  | inl e => (Raise e, w')
  | inr r => (Ok r, w')
  end.

Definition os_path_exists (path : string) (w : World) : bool :=
  bool_decide (is_Some (fs w !! path)).

(** [os.path.getsize(path)] *)
Definition os_path_getsize (path : string) : M Z := fun w =>
  match fs w !! path with
  | Some (RegFile data) => (Ok (str_len data), w)
  | Some (Directory sz) => (Ok sz, w)
  | None => (Raise (OSError "No such file or directory"), w)
  end.

(** The directories above a path, outermost first: the heads that
    [posixpath.split] gives when applied again and again, without the root
    and the working directory, that is, every prefix that a slash follows
    and that does not end in a slash.  For [/data/en/x] they are [/data]
    and [/data/en].  [slash] tells that [seen] is empty or ends in a
    slash. *)
Fixpoint ancestors_from (seen : string) (slash : bool) (rest : string)
  : list string :=
  match rest with
  | EmptyString => []
  | String c rest' =>
      (if Ascii.eqb c "/" && negb slash then [seen] else [])
      ++ ancestors_from (seen ++ String c EmptyString) (Ascii.eqb c "/") rest'
  end%list.

Definition ancestors (path : string) : list string :=
  ancestors_from "" true path.

(** The directory in which [path] is looked up: [None] stands for the
    root or the working directory, which always exist. *)
Definition parent (path : string) : option string := last (ancestors path).

(** What creating an entry at [path] meets in the directory above it. *)
Definition parent_error (path : string) (w : World) : option string :=
  match parent path with
  | None => None
  | Some d =>
      match fs w !! d with
      | Some (Directory _) => None
      | Some (RegFile _) => Some "Not a directory"
      | None => Some "No such file or directory"
      end
  end.

(** [os.mkdir(path)] *)
Definition os_mkdir (path : string) : M unit := fun w =>
  if bool_decide (path ∈ refused w) then (Raise (OSError "Permission denied"), w)
  else if os_path_exists path w then (Raise (OSError "File exists"), w)
  else
    match parent_error path w with
    | Some msg => (Raise (OSError msg), w)
    | None => (Ok tt, set_fs (insert path (Directory 4096)) w)
    end.

(** The [except OSError] clause of [os.makedirs]: only [EEXIST] is
    passed over. *)
Definition makedirs_except (e : exn) : option (M unit) :=
  match e with
  | OSError msg => if String.eqb msg "File exists" then Some (ret tt) else None
  | _ => None
  end.

(** The recursion of [os.makedirs(name)]: [above] lists the directories
    above [name], innermost first.  A missing head is created first, with
    its own missing heads, and [EEXIST] from there is passed over; then
    [name] itself is made. *)
Fixpoint makedirs_from (above : list string) (name : string) : M unit :=
  match above with
  | [] => os_mkdir name
  | head :: more =>
      (fun w =>
         if negb (os_path_exists head w)
         then try_except (makedirs_from more head) makedirs_except w
         else (Ok tt, w)) ;;
      os_mkdir name
  end.

(** [os.makedirs(path)] *)
Definition os_makedirs (path : string) : M unit :=
  makedirs_from (rev (ancestors path)) path.

(** [open(path, 'ab')]: the file is created when absent, in a directory
    that exists. *)
Definition open_append (path : string) : M unit := fun w =>
  match fs w !! path with
  | Some (Directory _) => (Raise (IOError "Is a directory"), w)
  | Some (RegFile _) => (Ok tt, w)
  | None =>
      match parent_error path w with
      | Some msg => (Raise (IOError msg), w)
      | None => (Ok tt, set_fs (insert path (RegFile "")) w)
      end
  end.

(** [local_file.write(block)] on a file opened for appending. *)
Definition file_write (path block : string) : M unit := fun w =>
  match fs w !! path with
  | Some (RegFile data) => (Ok tt, set_fs (insert path (RegFile (data ++ block))) w)
  | _ => (Raise (IOError "Bad file descriptor"), w)
  end.

(** [os.rename(src, dst)] *)
Definition os_rename (src dst : string) : M unit := fun w =>
  match fs w !! src with
  | None => (Raise (OSError "No such file or directory"), w)
  | Some n =>
      if String.eqb src dst then (Ok tt, w)
      else
        match fs w !! dst with
        | Some (Directory _) => (Raise (OSError "Is a directory"), w)
        | _ => (Ok tt, set_fs (fun m => <[dst := n]> (delete src m)) w)
        end
  end.

(** [block_size = 8 * 1024] *)
Definition block_size : Z := 8 * 1024.

(** The body cut into the blocks that successive [read(size)] calls
    return. *)
Fixpoint blocks_of (fuel size : nat) (s : string) : list string :=
  match fuel with
  | O => []
  | S fuel' =>
      match s with
      | EmptyString => []
      | _ => str_take size s :: blocks_of fuel' size (str_drop size s)
      end
  end.

Definition blocks (r : Response) : list string :=
  blocks_of (String.length (body r)) (Z.to_nat block_size) (body r).

(** What the calls [remote_file.read(block_size)] give, up to the empty
    string that ends [iter(..., '')]: the blocks of the body, cut short by
    the fault when there is one. *)
Definition reads (r : Response) : list (exn + string) :=
  match read_fault r with
  | Some (n, e) => List.map inr (take n (blocks r)) ++ [inl e]
  | None => List.map inr (blocks r)
  end.

(** [lang_site.read()]: the whole body, unless the connection fails
    while it is read. *)
Definition read_all (r : Response) : Outcome string :=
  match read_fault r with
  | Some (_, e) => Raise e
  | None => Ok (body r)
  end.

(** [%d] *)
Definition str_of_int (z : Z) : string :=
  if (z <? 0)%Z then "-" ++ str_of_Z (- z) else str_of_Z z.

(** ** Options, [URLHandler], [WPDownloader] *)

(** The operator's options the two classes read. *)
Record Options : Type := mkOptions {
  retries : Z;
  force : bool;
  resume : bool;
  quiet : bool;
  custom_dump : list string }.

Record URLHandler : Type := mkURLHandler {
  uh_config : Configuration;
  _host : string;
  _lang_dir_template : string;
  _filename_template : string;
  _custom_dump : list string }.

(** [URLHandler.__init__] *)
Definition URLHandler_init (config : Configuration) (opts : Options)
  : Outcome URLHandler :=
  let? host := get config "Configuration" "base_url" in
  let? lang_dir := string_template config "language_dir_format" in
  let? filename := string_template config "file_format" in
  Ok (mkURLHandler config host lang_dir filename (custom_dump opts)).

Record WPDownloader : Type := mkWPDownloader {
  _options : Options;
  _config : Configuration;
  _urlhandler : URLHandler }.

(** [WPDownloader.__init__], on the parsed configuration. *)
Definition WPDownloader_init (opts : Options) (config : Configuration)
  : Outcome WPDownloader :=
  let? h := URLHandler_init config opts in
  Ok (mkWPDownloader opts config h).

(** What a generator does when it is run to its end: the items it yields
    ([None] is Python's [None]) and how it then stops, normally ([Ok tt])
    or by raising. *)
Record Generated : Type := mkGen {
  yielded : list (option string);
  ending : Outcome unit }.

Definition stop_with {A} (o : Outcome A) : Generated :=
  mkGen [] (match o with Raise e => Raise e | _ => OutOfFuel end).

Section URLHandler.
Context `{UrlLib}.

(** [URLHandler.language_dir] *)
Definition language_dir (self : URLHandler) (language : string)
  : Outcome string :=
  if String.eqb language "entities" then Ok "wikidatawiki/entities"
  else substitute (_lang_dir_template self) [("langcode", language)].

(** [URLHandler.language_url] *)
Definition language_url (self : URLHandler) (language : string)
  : Outcome string :=
  let? d := language_dir self language in
  Ok (basejoin (_host self) d).

(** [URLHandler.dump_dates]: the date tokens of the page at [url]; the
    caller's list comprehension parses them ([parse_dates]). *)
Definition dump_dates (self : URLHandler) (url : string) : M (list string) :=
  try_except
    (do lang_site <- urlopen (mkReq url None);
     do page <- lift (read_all lang_site);
     ret (date_matcher_findall page))
    (fun io_err =>
       if is_IOError io_err
       then Some (LOG ERROR "%s" [AExn io_err] ;;
                  LOG ERROR "Could not retrieve: %s" [AStr url] ;;
                  raise io_err)
       else None).

Fixpoint parse_dates (tokens : list string) : Outcome (list datetime) :=
  match tokens with
  | [] => Ok []
  | t :: rest =>
      let? d := strptime t in
      let? ds := parse_dates rest in
      Ok (d :: ds)
  end.

(** [pair.split(':', 1)] *)
Fixpoint split_colon (s : string) : list string :=
  match s with
  | EmptyString => [""]
  | String c rest =>
      if Ascii.eqb c ":" then [""; rest]
      else
        match split_colon rest with
        | a :: l => String c a :: l
        | [] => [String c ""]
        end
  end.

(** [dict([pair.split(':', 1) for pair in pairs])]: later pairs win; a
    pair without a colon makes [dict] raise [ValueError]. *)
Fixpoint custom_dates (acc : gmap string string) (pairs : list string)
  : Outcome (gmap string string) :=
  match pairs with
  | [] => Ok acc
  | p :: rest =>
      match split_colon p with
      | [k; v] => custom_dates (<[k := v]> acc) rest
      | _ => Raise (ValueError "dictionary update sequence element has length 1; 2 is required")
      end
  end.

(** [URLHandler.latest_dump_date] *)
Definition latest_dump_date (self : URLHandler) (language : string)
  : M datetime :=
  do dates <- lift (custom_dates ∅ (_custom_dump self));
  match dates !! language with
  | Some v => lift (strptime v)
  | None =>
      do url <- lift (language_url self language);
      do tokens <- dump_dates self url;
      do ds <- lift (parse_dates tokens);
      lift (py_max_list (ds ++ [sentinel_date]))
  end.

(** The path part of the URL of [filename]: the argument of
    ['/'.join] in [urls_for_language]. *)
Definition server_path (self : URLHandler) (language : string)
  (latest : datetime) (filename : string) : Outcome string :=
  if String.eqb language "entities" then
    let? dir := language_dir self language in
    let? d1 := strftime_Ymd latest in
    let? d2 := strftime_Ymd latest in
    Ok (str_join "/" [dir; d1; "wikidata-" ++ d2 ++ "-all.json.gz"])
  else
    let? dir := language_dir self language in
    let? d1 := strftime_Ymd latest in
    let? d2 := strftime_Ymd latest in
    let? filetype := get (uh_config self) "Filetypes" filename in
    let? name := substitute (_filename_template self)
                   [("langcode", language); ("date", d2);
                    ("filename", filename); ("filetype", filetype)] in
    Ok (str_join "/" [dir; d1; name]).

(** One round of the [for filename in filetypes] loop: the URL it
    yields. *)
Definition file_url (self : URLHandler) (language : string)
  (latest : datetime) (filename : string) : Outcome string :=
  let? server_path := server_path self language latest filename in
  let parts := urlsplit (_host self) in
  Ok (urlunsplit (scheme parts) (netloc parts) server_path
        (query parts) (fragment parts)).

Fixpoint yield_urls (self : URLHandler) (language : string)
  (latest : datetime) (filetypes : list string) : Generated :=
  match filetypes with
  | [] => mkGen [] (Ok tt)
  | filename :: rest =>
      match file_url self language latest filename with
      | Ok u =>
          let g := yield_urls self language latest rest in
          mkGen (Some u :: yielded g) (ending g)
      | o => stop_with o
      end
  end.

(** [URLHandler.urls_for_language], run to its end.  All effects of the
    generator happen before its first item is handed out, so running it
    at the first [next()] is what the consumer observes. *)
Definition urls_for_language (self : URLHandler) (language : string)
  : M Generated := fun w =>
  match latest_dump_date self language w with
  | (Ok latest, w1) =>
      if (year latest <? 1900)%Z
      then (Ok (stop_with (strftime_Ymd latest)), w1)
      else
        let (_, w2) :=
          LOG INFO "Latest dump for (%s) is from %s"
            [AStr language; ATime "%A %d %B %Y" latest] w1 in
        match enabled_files (uh_config self) with
        | Ok filetypes => (Ok (yield_urls self language latest filetypes), w2)
        | o => (Ok (stop_with o), w2)
        end
  | (Raise io_err, w1) =>
      if is_IOError io_err then
        let (_, w2) :=
          (LOG ERROR "Could not get dump date for %s!" [AStr language] ;;
           LOG ERROR "Skip: %s" [AStr language] ;;
           LOG ERROR "%s" [AExn io_err]) w1 in
        (* [yield] hands out [None]; when resumed the code reads the
           local [latest], which was never assigned *)
        (Ok (mkGen [None] (Raise (UnboundLocalError "latest"))), w2)
      else (Ok (stop_with (@Raise unit io_err)), w1)
  | (OutOfFuel, w1) => (OutOfFuel, w1)
  end.
End URLHandler.

Section WPDownloader.
Context `{UrlLib}.

(** [WPDownloader._download_directory] *)
Definition _download_directory (self : WPDownloader) (language path : string)
  : M string :=
  do latest <- latest_dump_date (_urlhandler self) language;
  do d <- lift (strftime_Ymd latest);
  ret (os_path_join path [language; d]).

(** [WPDownloader._create_download_dirs] *)
Definition _create_download_dirs (self : WPDownloader) (language path : string)
  : M unit :=
  do down_dir <- _download_directory self language path;
  fun w =>
    if negb (os_path_exists down_dir w)
    then (LOG INFO "Creating directory: %s" [AStr down_dir] ;;
          os_makedirs down_dir) w
    else (Ok tt, w).

(** [WPDownloader._remote_content_length] *)
Definition _remote_content_length (self : WPDownloader) (url : string) : M Z :=
  do remote_file <- urlopen (mkReq url None);
  if (300 <=? getcode remote_file)%Z then ret 0
  else
    match content_length_header remote_file with
    | Some v => lift (py_int v)
    | None => raise (KeyError "content-length")
    end.

(** [WPDownloader._should_skip_url] *)
Definition _should_skip_url (self : WPDownloader) (url path : string) : M bool :=
  fun w =>
    if os_path_exists path w then
      (do remote <- _remote_content_length self url;
       do local <- os_path_getsize path;
       if (remote =? local)%Z && negb (force (_options self))
       then ret true else ret false) w
    else (Ok false, w).

(** [WPDownloader._offset] *)
Definition _offset (self : WPDownloader) (url path : string) : M Z :=
  fun w =>
    if resume (_options self) && os_path_exists path w then
      (do local_file_size <- os_path_getsize path;
       do remote <- _remote_content_length self url;
       if (local_file_size <=? remote)%Z
       then ret local_file_size else ret 0) w
    else (Ok 0, w).

Definition overrun (path : string) : exn :=
  DownloadError ["Received data exceeds advertised size: " ++ basename path].

(** The [for block in iter(...)] loop of [retrieve].  The calls of the
    progress bar are left out: they display, and they return as long as the
    values they are given lie between 0 and a probed length above 0. *)
Fixpoint copy_blocks (path : string) (content_length read : Z)
  (rs : list (exn + string)) : M unit :=
  match rs with
  | [] => ret tt
  | inl e :: _ => raise e
  | inr block :: rest =>
      file_write path block ;;
      let read := read + str_len block in
      if (content_length <? read)%Z
      then raise (overrun path)
      else copy_blocks path content_length read rest
  end.

(** [WPDownloader.retrieve] *)
Definition retrieve (self : WPDownloader) (url path : string) : M unit :=
  do offset <- _offset self url path;
  do remote_file <- urlopen (mkReq url (Some offset));
  if (300 <=? getcode remote_file)%Z then
    raise (DownloadError
             ["Got HTTP response code: " ++ str_of_int (getcode remote_file)
              ++ " for file " ++ basename path])
  else
    open_append path ;;
    (if (offset =? 0)%Z then ret tt
     else LOG INFO "Resume: %s" [AStr (basename path)]) ;;
    do content_length <- _remote_content_length self url;
    let read :=
      if negb (quiet (_options self)) && negb (offset =? 0)%Z
      then offset else 0 in
    copy_blocks path content_length read (reads remote_file).

(** The three [except] clauses of [retrieve_file]: each logs the cause
    and lets the loop go on. *)
Definition retrieve_file_except (e : exn) : option (M bool) :=
  if is_socket_error e
  then Some (LOG ERROR "Socket Error: %s" [AExn e] ;; ret false)
  else if is_IOError e
  then Some (LOG ERROR "%s" [AExn e] ;; ret false)
  else if is_DownloadError e
  then Some (LOG ERROR "%s" [AExn e] ;; ret false)
  else None.

(** One round of the [while True] loop of [retrieve_file] after the
    retry-limit test: [true] stands for [break]. *)
Definition attempt (self : WPDownloader) (url path : string) : M bool :=
  try_except
    (retrieve self url path ;;
     os_rename path (fst (splitext path)) ;;
     ret true)
    retrieve_file_except.

Definition retry_limit_exceeded (url : string) : exn :=
  DownloadError ["Could not retrieve file: " ++ basename url;
                 "Retry limit exceeded"].

(** The loop of [retrieve_file]; [path] already carries the suffix. *)
Fixpoint retrieve_file_loop (fuel : nat) (self : WPDownloader)
  (url path : string) (tries : Z) : M unit :=
  match fuel with
  | O => lift OutOfFuel
  | S fuel' =>
      if (tries =? retries (_options self))%Z
      then raise (retry_limit_exceeded url)
      else
        do done <- attempt self url path;
        if done then ret tt
        else retrieve_file_loop fuel' self url path (tries + 1)
  end.

(** [WPDownloader.retrieve_file] *)
Definition retrieve_file (fuel : nat) (self : WPDownloader)
  (url path : string) : M unit :=
  retrieve_file_loop fuel self url (path ++ ".part") 0.

(** The [for url in urls] loop of [retrieve_files] over the items of the
    generator, then the generator's own ending. *)
Fixpoint retrieve_each (fuel : nat) (self : WPDownloader)
  (urls : list (option string)) (ending : Outcome unit) (path : string)
  : M unit :=
  match urls with
  | [] => lift ending
  | None :: _ =>
      raise (AttributeError "'NoneType' object has no attribute 'rfind'")
  | Some url :: rest =>
      let file_path := os_path_join path [basename url] in
      do skip <- _should_skip_url self url file_path;
      (if skip
       then LOG INFO "Skipped: %s" [AStr (basename url)]
       else
         try_except (retrieve_file fuel self url file_path)
           (fun e =>
              if is_DownloadError e
              then Some (LOG ERROR "DownloadError: %s" [AStr (basename url)])
              else None)) ;;
      retrieve_each fuel self rest ending path
  end.

(** [WPDownloader.retrieve_files]; [urls] is the generator, not yet
    started. *)
Definition retrieve_files (fuel : nat) (self : WPDownloader)
  (urls : M Generated) (path : string) : M unit :=
  do g <- urls;
  retrieve_each fuel self (yielded g) (ending g) path.

(** [WPDownloader.download_language] *)
Definition download_language (fuel : nat) (self : WPDownloader)
  (language path : string) : M unit :=
  _create_download_dirs self language path ;;
  do dir <- _download_directory self language path;
  retrieve_files fuel self
    (urls_for_language (_urlhandler self) language) dir.

Fixpoint download_each (fuel : nat) (self : WPDownloader)
  (langs : list string) (path : string) : M unit :=
  match langs with
  | [] => ret tt
  | lang :: rest =>
      LOG INFO "Processing language: %s" [AStr lang] ;;
      try_except (download_language fuel self lang path)
        (fun e =>
           if is_IOError e
           then Some (LOG ERROR "Download failed: %s" [AStr lang] ;;
                      LOG ERROR "Skipped: %s" [AStr lang])
           else None) ;;
      download_each fuel self rest path
  end.

(** [WPDownloader.download_all_languages] *)
Definition download_all_languages (fuel : nat) (self : WPDownloader)
  (path : string) : M unit :=
  do langs <- lift (enabled_languages (_config self));
  download_each fuel self langs path.
End WPDownloader.


(** [failed_attempts self url path k w w']: from [w], [k] attempts on
    [path] in a row each end in an exception that [retrieve_file] catches
    (socket error, I/O error or [DownloadError]) and logs, leaving [w']. *)
Inductive failed_attempts (self : WPDownloader) (url path : string)
  : nat -> World -> World -> Prop :=
| no_attempt (w : World) : failed_attempts self url path 0 w w
| failed_attempt (k : nat) (w w1 w2 w3 : World) (e : exn) (h : M bool) :
    retrieve self url path w = (Raise e, w1) ->
    retrieve_file_except e = Some h ->
    h w1 = (Ok false, w2) ->
    failed_attempts self url path k w2 w3 ->
    failed_attempts self url path (S k) w w3.

(** The error of [dict] on a pair that [split] left whole. *)
Definition dict_error : exn :=
  ValueError "dictionary update sequence element has length 1; 2 is required".

Definition eight_digits (t : string) : Prop :=
  String.length t = 8%nat /\ str_all is_digit t = true.

(** [grows path m m']: [m'] is [m] except possibly at [path], where a
    regular file has only been appended to or, if nothing was there, may
    have been created; a directory at [path] is as before. *)
Definition grows (path : string) (m m' : gmap string node) : Prop :=
  (forall p, p <> path -> m' !! p = m !! p)
  /\ match m !! path with
     | Some (RegFile d) => exists d', m' !! path = Some (RegFile (d ++ d'))
     | Some (Directory sz) => m' !! path = Some (Directory sz)
     | None => m' !! path = None \/ exists d', m' !! path = Some (RegFile d')
     end.

(** [respects R m]: whatever the outcome, running [m] takes a world to one
    related to it by [R]. *)
Definition respects {A} (R : relation World) (m : M A) : Prop :=
  forall w, R w (snd (m w)).

(** The remote side is the same. *)
Definition same_net : relation World := fun w w' => net w' = net w.

(** The file system has only grown at [path]. *)
Definition grows_at (path : string) : relation World :=
  fun w w' => grows path (fs w) (fs w').

(** Every connection fails with an [IOError]. *)
Definition unreachable (w : World) : Prop :=
  forall n rq, exists e, net w n rq = inl e /\ is_IOError e = true.

(** The local disk is the same. *)
Definition same_disk : relation World :=
  fun w w' => fs w' = fs w /\ refused w' = refused w.

(** The record that [download_all_languages] logs when it starts on a
    language. *)
Definition processing_msg : string := "Processing language: %s".


(** The records of that kind in a log, oldest first. *)
Definition processing_records (l : list LogRecord) : list LogRecord :=
  List.filter (fun r => String.eqb (logmsg r) processing_msg) l.

(** No language was started in between. *)
Definition no_start : relation World :=
  fun w w' => processing_records (log w') = processing_records (log w).

(** The directory above [path] exists: what [open] needs in order to
    create or to find the file. *)
Definition parent_is_directory (path : string) (w : World) : Prop :=
  match parent path with
  | None => True
  | Some d => exists sz, fs w !! d = Some (Directory sz)
  end.

(** What [os.makedirs] may do to the file system: directories appear at
    free paths among [places]; everything else stays. *)
Definition adds_dirs (places : list string) : relation World :=
  fun w w' =>
    forall p, fs w' !! p = fs w !! p
              \/ (fs w !! p = None /\ In p places
                  /\ exists sz, fs w' !! p = Some (Directory sz)).

(** ** Sample data *)

(** A stand-in for the URL routines on the sample base URL. *)
#[local] Instance sample_urllib : UrlLib := {|
  urlsplit := fun _ => mkSplit "http" "dumps.wikimedia.org" "/" "" "";
  basejoin := fun base url => base ++ url |}.

Definition sample_config (files languages : list (string * string))
  : Configuration :=
  mkConfig "wpdownloadrc"
    [("Configuration", [("base_url", "http://dumps.wikimedia.org/")]);
     ("Templates", [("language_dir_format", "${langcode}wiki");
                    ("file_format", "${langcode}wiki-${date}-${filename}.${filetype}")]);
     ("Files", files);
     ("Filetypes", [("pages-articles", "xml.bz2"); ("abstract", "xml");
                    ("langlinks", "sql.gz")]);
     ("Languages", languages)].

Definition sample_options : Options := mkOptions 3 false true false [].

Definition sample_handler (config : Configuration) (opts : Options) : URLHandler :=
  mkURLHandler config "http://dumps.wikimedia.org/" "${langcode}wiki"
    "${langcode}wiki-${date}-${filename}.${filetype}" (custom_dump opts).

Definition sample_downloader (config : Configuration) (opts : Options)
  : WPDownloader :=
  mkWPDownloader opts config (sample_handler config opts).

(** A listing line as the dump server prints it. *)
Definition anchor (d : string) : string :=
  anchor_open ++ d ++ anchor_mid ++ d ++ "/</a>".

Definition newline : string := String "010" "".

Definition world_of (files : gmap string node)
  (server : nat -> Request -> exn + Response) : World :=
  mkWorld files ∅ server 0 [].

Definition listing (dates : list string) : string :=
  String.concat "" (List.map (fun d => anchor d ++ newline) dates).

(** A server that answers the two listing URLs with [page] and any other
    URL with a file of the advertised [length] and the given [data]. *)
Definition sample_server (page length data : string) (n : nat) (rq : Request)
  : exn + Response :=
  if String.eqb (req_url rq) "http://dumps.wikimedia.org/enwiki"
     || String.eqb (req_url rq) "http://dumps.wikimedia.org/wikidatawiki/entities"
  then inr (mkResp 200 None page None)
  else inr (mkResp 200 (Some length) data None).

(** A remote side that cannot be reached. *)
Definition server_down (n : nat) (rq : Request) : exn + Response :=
  inl (IOError "socket error").

Definition two_files : Configuration :=
  sample_config [("pages-articles", "true"); ("abstract", "true");
                 ("langlinks", "false")]
                [("en", "true")].

Definition sample_listing : string := listing ["20230101"; "20230201"].

Definition sample_world : World :=
  world_of ∅ (sample_server sample_listing "5" "hello").

(** A listing whose only dump is older than the sentinel date. *)
Definition old_world : World :=
  world_of ∅ (sample_server (listing ["18991231"]) "5" "hello").

Definition abstract_url : string :=
  "http://dumps.wikimedia.org/enwiki/20230201/enwiki-20230201-abstract.xml".


Definition quiet_options : Options := mkOptions 3 false true true [].

(** A partial file of three bytes left by an earlier attempt; the server
    advertises five bytes and sends all five whatever range is asked. *)
Definition partial_world : World :=
  world_of {["/data/x.part" := RegFile "abc"]} (sample_server "" "5" "hello").

Definition two_languages : Configuration :=
  sample_config [("pages-articles", "true")]
                [("entities", "true"); ("en", "true")].

(** The operating system refuses to create the directory of [en]. *)
Definition refusing_world : World :=
  mkWorld ∅ {["/data/en/20230201"]}
    (sample_server sample_listing "5" "hello") 0 [].

(** The third connection fails, the others are served. *)
Definition flaky_server (n : nat) (rq : Request) : exn + Response :=
  if (n =? 2)%nat then inl (IOError "socket error")
  else sample_server sample_listing "5" "hello" n rq.

(** The server is reached from the second connection on. *)
Definition late_server (n : nat) (rq : Request) : exn + Response :=
  if (n <? 1)%nat then inl (IOError "socket error")
  else sample_server sample_listing "5" "hello" n rq.

(** That server and a download directory that exists. *)
Definition late_world : World :=
  world_of {["/data" := Directory 4096]} late_server.

(** A URL that ends in a slash, and the local path [retrieve_files] derives
    from it under [/data]. *)
Definition slash_url : string := "http://dumps.wikimedia.org/enwiki/20230201/".

(** The destination is taken by a directory. *)
Definition directory_world : World :=
  world_of {["/data" := Directory 4096; "/data/x" := Directory 4096]}
    (sample_server sample_listing "5" "hello").

Definition file_url_x : string := "http://dumps.wikimedia.org/enwiki/20230201/x".

Definition one_retry_options : Options := mkOptions 1 false true false [].

(** The world after the first, failed attempt against [late_server], and
    after the second, successful one. *)
Definition after_failure : World :=
  mkWorld {["/data" := Directory 4096]} ∅ late_server 1
    [mkLog ERROR "%s" [AExn (IOError "socket error")]].

Definition after_success : World :=
  mkWorld {["/data" := Directory 4096; "/data/x.part" := RegFile "hello"]} ∅
    late_server 3
    [mkLog ERROR "%s" [AExn (IOError "socket error")]].

(** A complete local copy of five bytes. *)
Definition complete_world : World :=
  world_of {["/data/x" := RegFile "hello"]} (sample_server "" "5" "hello").

(** The same copy against a resource the server no longer has. *)
Definition missing_server (n : nat) (rq : Request) : exn + Response :=
  inr (mkResp 404 (Some "5") "gone!" None).

Definition missing_world : World :=
  world_of {["/data/x" := RegFile "hello"]} missing_server.

Definition force_options : Options := mkOptions 3 true true false [].

Definition no_resume_options : Options := mkOptions 3 false false false [].

(** A configuration whose section [Files] holds a value that is no
    boolean word. *)
Definition bad_value_config : Configuration :=
  sample_config [("abstract", "true"); ("pages-articles", "maybe")]
                [("en", "true")].

(** A configuration without the template of file names. *)
Definition no_file_format_config : Configuration :=
  mkConfig "wpdownloadrc"
    [("Configuration", [("base_url", "http://dumps.wikimedia.org/")]);
     ("Templates", [("language_dir_format", "${langcode}wiki")]);
     ("Files", [("pages-articles", "true")]);
     ("Languages", [("en", "true")])].

Definition two_overrides_options : Options :=
  mkOptions 3 false true false ["en:20230101"; "de:20221201"; "en:20230315"].

Definition bad_override_options : Options :=
  mkOptions 3 false true false ["en:20230101"; "de20221201"].

(** A server that honours the range asked for: it sends [data] from the
    offset on and advertises the full length. *)
Definition range_server (data : string) (n : nat) (rq : Request)
  : exn + Response :=
  match req_range rq with
  | Some offset =>
      inr (mkResp 206 (Some (str_of_Z (str_len data))) (slice_from data offset) None)
  | None => inr (mkResp 200 (Some (str_of_Z (str_len data))) "" None)
  end.

(** Three bytes of [hello] are on disk already. *)
Definition resumed_world : World :=
  world_of {["/data" := Directory 4096; "/data/x.part" := RegFile "hel"]}
    (range_server "hello").

(** The connection breaks before the first block is read. *)
Definition broken_server (n : nat) (rq : Request) : exn + Response :=
  match req_range rq with
  | Some offset =>
      inr (mkResp 206 (Some "5") "lo" (Some (0%nat, socket_error "timed out")))
  | None => inr (mkResp 200 (Some "5") "" None)
  end.

Definition broken_world : World :=
  world_of {["/data" := Directory 4096; "/data/x.part" := RegFile "hel"]}
    broken_server.

(** A listing with a token that is no calendar date. *)
Definition month13_world : World :=
  world_of ∅ (sample_server (listing ["20230101"; "20231301"]) "5" "hello").

(** The directory of [en] is there already. *)
Definition prepared_world : World :=
  world_of {["/data/en/20230201" := Directory 4096]}
    (sample_server sample_listing "5" "hello").

(** [langlinks] is enabled but has no entry in the section
    [Filetypes]. *)
Definition no_filetype_config : Configuration :=
  mkConfig "wpdownloadrc"
    [("Configuration", [("base_url", "http://dumps.wikimedia.org/")]);
     ("Templates", [("language_dir_format", "${langcode}wiki");
                    ("file_format", "${langcode}wiki-${date}-${filename}.${filetype}")]);
     ("Files", [("abstract", "true"); ("langlinks", "true");
                ("pages-articles", "true")]);
     ("Filetypes", [("pages-articles", "xml.bz2"); ("abstract", "xml")]);
     ("Languages", [("en", "true")])].

(** A URL whose last component is the file name [...], and a download
    directory that exists. *)
Definition dots_url : string := "http://dumps.wikimedia.org/enwiki/20230201/...".

Definition data_dir_world : World :=
  world_of {["/data" := Directory 4096]} (sample_server sample_listing "5" "hello").

(** [sample_world] after [_create_download_dirs] for [en] under [/data]:
    the download directory and the two directories above it are there. *)
Definition created_world : World :=
  mkWorld {["/data" := Directory 4096; "/data/en" := Directory 4096;
            "/data/en/20230201" := Directory 4096]} ∅
    (sample_server sample_listing "5" "hello") 1
    [mkLog INFO "Creating directory: %s" [AStr "/data/en/20230201"]].

(** * Properties *)

Ltac unfold_monad :=
  unfold bind, ret, raise, lift, try_except, LOG, urlopen, os_path_getsize,
    os_path_exists, set_fs in *; simpl in *.

(** The sample downloader is what the constructors build from the sample
    configuration. *)
Example sample_downloader_init :
  WPDownloader_init sample_options two_files
  = Ok (sample_downloader two_files sample_options).
Proof. reflexivity. Qed.

(** ** The probe, the skip test and the offset *)

(** What the probe does, case by case. *)
Lemma remote_content_length_eq (self : WPDownloader) (url : string) (w : World) :
  fst (_remote_content_length self url w) =
    match net w (conns w) (mkReq url None) with
    | inl e => Raise e
    | inr r =>
        if (300 <=? getcode r)%Z then Ok 0
        else match content_length_header r with
             | Some v => py_int v
             | None => Raise (KeyError "content-length")
             end
    end.
Proof.
  unfold _remote_content_length. unfold_monad.
  destruct (net w (conns w) (mkReq url None)) as [e|r]; [reflexivity|].
  destruct (300 <=? getcode r)%Z; [reflexivity|].
  destruct (content_length_header r); reflexivity.
Qed.

(** The probe touches nothing but the connection counter. *)
Lemma remote_content_length_frame (self : WPDownloader) (url : string) (w : World) :
  let w' := snd (_remote_content_length self url w) in
  fs w' = fs w /\ refused w' = refused w /\ net w' = net w
  /\ conns w' = S (conns w) /\ log w' = log w.
Proof.
  unfold _remote_content_length. unfold_monad.
  destruct (net w (conns w) (mkReq url None)) as [e|r]; [easy|].
  destruct (300 <=? getcode r)%Z; [easy|].
  destruct (content_length_header r); easy.
Qed.

Lemma should_skip_url_eq (self : WPDownloader) (url path : string) (w : World) :
  fst (_should_skip_url self url path w) =
    match fs w !! path with
    | None => Ok false
    | Some n =>
        match fst (_remote_content_length self url w) with
        | Ok remote =>
            Ok ((remote =? match n with RegFile d => str_len d | Directory sz => sz end)%Z
                && negb (force (_options self)))
        | Raise e => Raise e
        | OutOfFuel => OutOfFuel
        end
    end.
Proof.
  unfold _should_skip_url, os_path_exists.
  destruct (fs w !! path) as [n|] eqn:Hp.
  - rewrite bool_decide_eq_true_2 by eauto.
    pose proof (remote_content_length_frame self url w) as (Hfs & _).
    unfold bind.
    destruct (_remote_content_length self url w) as [[remote| |] w'];
      simpl in *; try reflexivity.
    unfold os_path_getsize. rewrite Hfs, Hp.
    destruct n; simpl;
      match goal with |- context [(?a && ?b)%bool] => destruct (a && b)%bool end;
      reflexivity.
  - rewrite bool_decide_eq_false_2; [reflexivity|].
    intros [? ?]; congruence.
Qed.

Lemma offset_eq (self : WPDownloader) (url path : string) (w : World) :
  fst (_offset self url path w) =
    if resume (_options self) then
      match fs w !! path with
      | None => Ok 0
      | Some n =>
          let size := match n with RegFile d => str_len d | Directory sz => sz end in
          match fst (_remote_content_length self url w) with
          | Ok remote => Ok (if (size <=? remote)%Z then size else 0)
          | Raise e => Raise e
          | OutOfFuel => OutOfFuel
          end
      end
    else Ok 0.
Proof.
  unfold _offset, os_path_exists.
  destruct (resume (_options self)); [|reflexivity]. simpl.
  destruct (fs w !! path) as [n|] eqn:Hp.
  - rewrite bool_decide_eq_true_2 by eauto.
    unfold bind, os_path_getsize. rewrite Hp.
    destruct n; simpl;
      destruct (_remote_content_length self url w) as [[remote| |] w'];
      simpl; try reflexivity;
      match goal with |- context [(?a <=? ?b)%Z] => destruct (a <=? b)%Z end;
      reflexivity.
  - rewrite bool_decide_eq_false_2; [reflexivity|].
    intros [? ?]; congruence.
Qed.

(** C3: [_should_skip_url] answers [True] exactly when a local file exists
    at the path, the probe returns a length equal to its size, and [force]
    is off; with [force] on, its answer is [False] whatever the sizes; a
    probe answered with a status of 300 or more gives length 0, so a
    non-empty local file is never skipped against such a resource. *)
Theorem should_skip_url_spec (self : WPDownloader) (url path : string) (w : World) :
  (fst (_should_skip_url self url path w) = Ok true <->
     os_path_exists path w = true
     /\ (exists size, fst (os_path_getsize path w) = Ok size
                      /\ fst (_remote_content_length self url w) = Ok size)
     /\ force (_options self) = false)
  /\ (force (_options self) = true ->
      (forall b, fst (_should_skip_url self url path w) = Ok b -> b = false)
      /\ (forall remote, fst (_remote_content_length self url w) = Ok remote ->
          fst (_should_skip_url self url path w) = Ok false))
  /\ (forall r, net w (conns w) (mkReq url None) = inr r ->
      (300 <= getcode r)%Z ->
      fst (_remote_content_length self url w) = Ok 0
      /\ (forall data, fs w !! path = Some (RegFile data) -> data <> "" ->
          fst (_should_skip_url self url path w) = Ok false)).
Proof.
  rewrite should_skip_url_eq. unfold os_path_exists, os_path_getsize.
  split; [|split].
  - destruct (fs w !! path) as [n|] eqn:Hp.
    + rewrite bool_decide_eq_true_2 by eauto.
      destruct (fst (_remote_content_length self url w)) as [remote| |] eqn:Hr.
      * split.
        -- intros [= Hb]. apply andb_prop in Hb as [Hs Hf].
           apply Z.eqb_eq in Hs. apply negb_true_iff in Hf.
           split; [reflexivity|]. split; [|exact Hf].
           exists remote. destruct n; simpl; subst; auto.
        -- intros (_ & (size & Hs & [= ->]) & Hf). rewrite Hf. simpl.
           destruct n; simpl in Hs; injection Hs as ->;
             rewrite Z.eqb_refl; reflexivity.
      * split; [discriminate|]. intros (_ & (size & _ & ?) & _). discriminate.
      * split; [discriminate|]. intros (_ & (size & _ & ?) & _). discriminate.
    + rewrite bool_decide_eq_false_2 by (intros [? ?]; congruence).
      split; [discriminate|]. intros (? & _). discriminate.
  - intros Hf. rewrite Hf. simpl. split.
    + intros b. destruct (fs w !! path); [|congruence].
      destruct (fst (_remote_content_length self url w)); try discriminate.
      rewrite andb_false_r. congruence.
    + intros remote ->. destruct (fs w !! path); [|reflexivity].
      rewrite andb_false_r. reflexivity.
  - intros r Hnet Hcode. rewrite remote_content_length_eq, Hnet.
    apply Z.leb_le in Hcode. rewrite Hcode. split; [reflexivity|].
    intros data -> Hne.
    replace (0 =? str_len data)%Z with false; [reflexivity|].
    symmetry. apply Z.eqb_neq. unfold str_len.
    destruct data; [contradiction|]. simpl. lia.
Qed.

Lemma should_skip_url_spec_witness :
  fst (_should_skip_url (sample_downloader two_files sample_options)
         file_url_x "/data/x" complete_world) = Ok true
  /\ fst (_should_skip_url (sample_downloader two_files force_options)
            file_url_x "/data/x" complete_world) = Ok false
  /\ fst (_should_skip_url (sample_downloader two_files sample_options)
            file_url_x "/data/x" missing_world) = Ok false.
Proof.
  split; [|split].
  - apply (proj1 (should_skip_url_spec
                    (sample_downloader two_files sample_options)
                    file_url_x "/data/x" complete_world)).
    split; [reflexivity|]. split; [|reflexivity].
    exists 5%Z. split; vm_compute; reflexivity.
  - apply (proj2 (proj1 (proj2 (should_skip_url_spec
                    (sample_downloader two_files force_options)
                    file_url_x "/data/x" complete_world)) eq_refl) 5%Z).
    vm_compute. reflexivity.
  - apply (proj2 (proj2 (proj2 (should_skip_url_spec
                    (sample_downloader two_files sample_options)
                    file_url_x "/data/x" missing_world))
                    (mkResp 404 (Some "5") "gone!" None) eq_refl
                    ltac:(cbn; lia)) "hello").
    + vm_compute. reflexivity.
    + discriminate.
Defined.

(** C4: [_offset] is 0 when resume is off, when there is no local file, or
    when the probed length is below the local size; when resume is on, the
    file is there and the probed length is at least its size, it is that
    size. *)
Theorem offset_spec (self : WPDownloader) (url path : string) (w : World) :
  (resume (_options self) = false -> fst (_offset self url path w) = Ok 0)
  /\ (os_path_exists path w = false -> fst (_offset self url path w) = Ok 0)
  /\ (forall size remote,
        resume (_options self) = true ->
        fst (os_path_getsize path w) = Ok size ->
        fst (_remote_content_length self url w) = Ok remote ->
        fst (_offset self url path w) =
          Ok (if (remote <? size)%Z then 0 else size)).
Proof.
  rewrite offset_eq. unfold os_path_exists, os_path_getsize.
  split; [|split].
  - intros ->. reflexivity.
  - intros Hex. destruct (fs w !! path) eqn:Hp.
    + rewrite bool_decide_eq_true_2 in Hex by eauto. discriminate.
    + destruct (resume _); reflexivity.
  - intros size remote -> Hs ->.
    destruct (fs w !! path) as [n|]; [|discriminate].
    assert (size = match n with RegFile d => str_len d | Directory sz => sz end)
      as <- by (destruct n; simpl in Hs; congruence).
    simpl. rewrite Z.leb_antisym. destruct (remote <? size)%Z; reflexivity.
Qed.


Lemma offset_spec_witness :
  fst (_offset (sample_downloader two_files no_resume_options)
         file_url_x "/data/x.part" partial_world) = Ok 0%Z
  /\ fst (_offset (sample_downloader two_files sample_options)
            file_url_x "/data/y.part" partial_world) = Ok 0%Z
  /\ fst (_offset (sample_downloader two_files sample_options)
            file_url_x "/data/x.part" partial_world) = Ok 3%Z.
Proof.
  split; [|split].
  - apply (proj1 (offset_spec (sample_downloader two_files no_resume_options)
                    file_url_x "/data/x.part" partial_world)).
    reflexivity.
  - apply (proj1 (proj2 (offset_spec (sample_downloader two_files sample_options)
                           file_url_x "/data/y.part" partial_world))).
    vm_compute. reflexivity.
  - apply (proj2 (proj2 (offset_spec (sample_downloader two_files sample_options)
                           file_url_x "/data/x.part" partial_world)) 3%Z 5%Z).
    + reflexivity.
    + vm_compute. reflexivity.
    + vm_compute. reflexivity.
Defined.

(** ** Date discovery *)

(** C7: for a language with an entry in the custom mapping whose value is a
    date, [latest_dump_date] returns that date and leaves the world as it
    was: no connection is opened and the remote side is never asked. *)
Theorem latest_dump_date_custom `{UrlLib} (self : URLHandler)
  (language v : string) (m : gmap string string) (d : datetime) (w : World) :
  custom_dates ∅ (_custom_dump self) = Ok m ->
  m !! language = Some v ->
  strptime v = Ok d ->
  latest_dump_date self language w = (Ok d, w).
Proof.
  intros Hm Hl Hd. unfold latest_dump_date, bind, lift.
  rewrite Hm, Hl, Hd. reflexivity.
Qed.

Lemma latest_dump_date_custom_witness :
  latest_dump_date
    (sample_handler two_files (mkOptions 3 false true false ["en:20230315"]))
    "en" (world_of ∅ server_down)
  = (Ok (mkdate 2023 3 15), world_of ∅ server_down).
Proof.
  apply (latest_dump_date_custom _ "en" "20230315" {["en" := "20230315"]});
    reflexivity.
Defined.

(** What [urls_for_language] does when date resolution raises an
    [IOError]: the cause is logged, [None] is handed out, and resuming
    raises [UnboundLocalError]. *)
Lemma urls_for_language_io_error `{UrlLib} (self : URLHandler)
  (language : string) (w w1 : World) (e : exn) :
  latest_dump_date self language w = (Raise e, w1) ->
  is_IOError e = true ->
  exists w2,
    urls_for_language self language w
    = (Ok (mkGen [None] (Raise (UnboundLocalError "latest"))), w2)
    /\ fs w2 = fs w1 /\ conns w2 = conns w1
    /\ log w2 = (log w1 ++
         [mkLog ERROR "Could not get dump date for %s!" [AStr language];
          mkLog ERROR "Skip: %s" [AStr language];
          mkLog ERROR "%s" [AExn e]])%list.
Proof.
  intros Hd He. unfold urls_for_language. rewrite Hd, He.
  unfold_monad. eexists. split; [reflexivity|].
  rewrite <- !app_assoc. easy.
Qed.

(** C2: with the remote side unreachable, date resolution for [en] fails
    with an [IOError]; the generator then is not empty: it hands out one
    item, [None], and raises [UnboundLocalError] when asked for the next. *)
Theorem urls_for_language_discovery_failure :
  let self := sample_handler two_files sample_options in
  let w := world_of ∅ server_down in
  fst (latest_dump_date self "en" w) = Raise (IOError "socket error")
  /\ fst (urls_for_language self "en" w)
     = Ok (mkGen [None] (Raise (UnboundLocalError "latest")))
  /\ (forall g, fst (urls_for_language self "en" w) = Ok g -> yielded g <> []).
Proof.
  split; [reflexivity|]. split; [reflexivity|].
  intros g [= <-]. discriminate.
Qed.

(** ** URL generation *)

Lemma append_assoc (a b c : string) : (a ++ b) ++ c = a ++ (b ++ c).
Proof. induction a as [|x a IH]; [reflexivity|]. cbn. now rewrite IH. Qed.

Lemma append_empty_r (a : string) : a ++ "" = a.
Proof. induction a as [|x a IH]; [reflexivity|]. cbn. now rewrite IH. Qed.

(** [urlunsplit] keeps the path it is given: the result is that path
    between a prefix and a suffix made from the other four parts. *)
Lemma urlunsplit_contains (sch loc path qry frag : string) :
  exists pre post, urlunsplit sch loc path qry frag = pre ++ path ++ post.
Proof.
  unfold urlunsplit.
  set (c1 := nonempty loc || _).
  set (c2 := nonempty path && _).
  assert (exists pre1, (if c1 then "//" ++ loc ++ (if c2 then "/" ++ path else path)
                        else path) = pre1 ++ path) as [pre1 ->].
  { destruct c1, c2.
    - exists ("//" ++ loc ++ "/"). now rewrite !append_assoc.
    - exists ("//" ++ loc). now rewrite !append_assoc.
    - now exists "".
    - now exists "". }
  assert (exists pre2, (if nonempty sch then sch ++ ":" ++ pre1 ++ path
                        else pre1 ++ path) = pre2 ++ path) as [pre2 ->].
  { destruct (nonempty sch).
    - exists (sch ++ ":" ++ pre1). now rewrite !append_assoc.
    - now exists pre1. }
  exists pre2.
  destruct (nonempty qry), (nonempty frag).
  - exists ("?" ++ qry ++ "#" ++ frag). now rewrite !append_assoc.
  - exists ("?" ++ qry). now rewrite !append_assoc.
  - exists ("#" ++ frag). now rewrite !append_assoc.
  - exists "". now rewrite !append_empty_r.
Qed.

(** For [entities] the URL of a file type does not depend on the file
    type. *)
Lemma file_url_entities `{UrlLib} (self : URLHandler) (latest : datetime)
  (f g : string) :
  file_url self "entities" latest f = file_url self "entities" latest g.
Proof. reflexivity. Qed.

Lemma yield_urls_entities `{UrlLib} (self : URLHandler) (latest : datetime)
  (u : string) (filetypes : list string) :
  (forall f, file_url self "entities" latest f = Ok u) ->
  yield_urls self "entities" latest filetypes
  = mkGen (repeat (Some u) (length filetypes)) (Ok tt).
Proof.
  intros Hu. induction filetypes as [|f l IH]; [reflexivity|].
  cbn [yield_urls]. rewrite Hu, IH. reflexivity.
Qed.

(** C10: for the language [entities], once the date is resolved to
    [latest] (1900 or later, so that it can be printed) and [n] file types
    are enabled, the generator hands out the same URL [n] times and stops;
    that URL contains [wikidata-<date>-all.json.gz]. *)
Theorem urls_for_language_entities `{UrlLib} (self : URLHandler)
  (latest : datetime) (filetypes : list string) (w w1 : World) :
  latest_dump_date self "entities" w = (Ok latest, w1) ->
  (1900 <= year latest)%Z ->
  enabled_files (uh_config self) = Ok filetypes ->
  exists u date pre post w2,
    urls_for_language self "entities" w
    = (Ok (mkGen (repeat (Some u) (length filetypes)) (Ok tt)), w2)
    /\ strftime_Ymd latest = Ok date
    /\ u = pre ++ ("wikidata-" ++ date ++ "-all.json.gz") ++ post.
Proof.
  intros Hd Hy Hf.
  assert (Hlt : (year latest <? 1900)%Z = false) by (apply Z.ltb_ge; lia).
  set (date := str_of_Z (year latest) ++ pad2 (month latest) ++ pad2 (day latest)).
  assert (Hs : strftime_Ymd latest = Ok date)
    by (unfold strftime_Ymd; now rewrite Hlt).
  set (sp := str_join "/" ["wikidatawiki/entities"; date;
                           "wikidata-" ++ date ++ "-all.json.gz"]).
  destruct (urlunsplit_contains (scheme (urlsplit (_host self)))
              (netloc (urlsplit (_host self))) sp
              (query (urlsplit (_host self)))
              (fragment (urlsplit (_host self)))) as (pre & post & Hu).
  set (u := urlunsplit _ _ sp _ _) in Hu.
  assert (Hfu : forall f, file_url self "entities" latest f = Ok u).
  { intros f. unfold file_url, server_path. cbn [String.eqb Ascii.eqb Bool.eqb].
    unfold language_dir. cbn [String.eqb Ascii.eqb Bool.eqb obind].
    rewrite Hs. reflexivity. }
  exists u, date, (pre ++ "wikidatawiki/entities/" ++ date ++ "/"), post.
  eexists. split; [|split; [exact Hs|]].
  - unfold urls_for_language. rewrite Hd, Hlt. unfold LOG. rewrite Hf.
    rewrite (yield_urls_entities self latest u filetypes Hfu). reflexivity.
  - rewrite Hu. unfold sp. cbn [str_join]. now rewrite !append_assoc.
Qed.

Lemma urls_for_language_entities_witness :
  exists u date pre post w2,
    urls_for_language (sample_handler two_files sample_options) "entities"
      sample_world
    = (Ok (mkGen (repeat (Some u) (length ["abstract"; "pages-articles"])) (Ok tt)), w2)
    /\ strftime_Ymd (mkdate 2023 2 1) = Ok date
    /\ u = pre ++ ("wikidata-" ++ date ++ "-all.json.gz") ++ post.
Proof.
  eapply (urls_for_language_entities
            (sample_handler two_files sample_options) (mkdate 2023 2 1)
            ["abstract"; "pages-articles"] sample_world).
  - vm_compute. reflexivity.
  - simpl. lia.
  - reflexivity.
Defined.





(** ** The latest date of a listing *)

Lemma datetime_le_refl (a : datetime) : datetime_le a a.
Proof.
  unfold datetime_le, datetime_ltb.
  rewrite !Z.ltb_irrefl. cbn. now rewrite !andb_false_r.
Qed.

Lemma datetime_ltb_spec (a b : datetime) :
  datetime_ltb a b = true <->
  (year a < year b
   \/ (year a = year b
       /\ (month a < month b \/ (month a = month b /\ day a < day b))))%Z.
Proof.
  unfold datetime_ltb.
  rewrite orb_true_iff, andb_true_iff, orb_true_iff, andb_true_iff.
  rewrite !Z.ltb_lt, !Z.eqb_eq. reflexivity.
Qed.

Lemma datetime_le_spec (a b : datetime) :
  datetime_le a b <->
  (year a < year b
   \/ (year a = year b
       /\ (month a < month b \/ (month a = month b /\ day a <= day b))))%Z.
Proof.
  unfold datetime_le. rewrite <- not_true_iff_false, datetime_ltb_spec. lia.
Qed.

Lemma datetime_le_trans (a b c : datetime) :
  datetime_le a b -> datetime_le b c -> datetime_le a c.
Proof. rewrite !datetime_le_spec. lia. Qed.

Lemma datetime_le_antisym (a b : datetime) :
  datetime_le a b -> datetime_le b a -> a = b.
Proof.
  rewrite !datetime_le_spec. destruct a, b; cbn. intros ? ?.
  f_equal; lia.
Qed.

Lemma datetime_ltb_le (a b : datetime) :
  datetime_ltb a b = true -> datetime_le a b.
Proof. rewrite datetime_ltb_spec, datetime_le_spec. lia. Qed.

(** [max] returns an item of the list that no item exceeds. *)
Lemma py_max_spec (l : list datetime) (x : datetime) :
  In (py_max x l) (x :: l)
  /\ forall y, In y (x :: l) -> datetime_le y (py_max x l).
Proof.
  revert x. induction l as [|y l IH]; intros x.
  - cbn. split; [auto|]. intros z [<-|[]]. apply datetime_le_refl.
  - unfold py_max. cbn [fold_left].
    set (x' := if datetime_ltb x y then y else x).
    destruct (IH x') as [Hin Hle]. fold (py_max x' l).
    assert (Hx : datetime_le x x' /\ datetime_le y x' /\ (x' = x \/ x' = y)).
    { unfold x'. destruct (datetime_ltb x y) eqn:E.
      - split; [now apply datetime_ltb_le|]. split; [apply datetime_le_refl|auto].
      - split; [apply datetime_le_refl|]. split; [exact E|auto]. }
    destruct Hx as (Hxx & Hyx & Hx').
    split.
    + destruct Hin as [Hin|Hin].
      * rewrite <- Hin. destruct Hx' as [E|E]; rewrite E; cbn; auto.
      * cbn; auto.
    + intros z [<-|[<-|Hz]].
      * eapply datetime_le_trans; [exact Hxx|]. apply Hle. now left.
      * eapply datetime_le_trans; [exact Hyx|]. apply Hle. now left.
      * apply Hle. now right.
Qed.

(** C6 (as amended): for a language without custom date whose listing page
    is fetched and holds the date tokens [ds], [latest_dump_date] returns
    the greatest of [ds] and the sentinel 1900-01-01; that is the sentinel
    for a page without tokens, and the greatest of [ds] as soon as one of
    them is not before the sentinel. *)
Theorem latest_dump_date_listing `{UrlLib} (self : URLHandler)
  (language url : string) (m : gmap string string) (r : Response)
  (ds : list datetime) (w : World) :
  custom_dates ∅ (_custom_dump self) = Ok m ->
  m !! language = None ->
  language_url self language = Ok url ->
  net w (conns w) (mkReq url None) = inr r ->
  read_fault r = None ->
  parse_dates (date_matcher_findall (body r)) = Ok ds ->
  exists d w',
    latest_dump_date self language w = (Ok d, w')
    /\ In d (ds ++ [sentinel_date])%list
    /\ (forall x, In x (ds ++ [sentinel_date])%list -> datetime_le x d)
    /\ (ds = [] -> d = sentinel_date)
    /\ ((exists x, In x ds /\ datetime_le sentinel_date x) ->
        In d ds /\ forall x, In x ds -> datetime_le x d).
Proof.
  intros Hm Hl Hu Hn Hf Hp.
  unfold latest_dump_date, dump_dates. unfold_monad.
  rewrite Hm, Hl, Hu, Hn. unfold read_all. rewrite Hf, Hp.
  destruct (ds ++ [sentinel_date])%list as [|x l] eqn:E.
  { destruct ds; discriminate. }
  cbn. destruct (py_max_spec l x) as [Hin Hle].
  eexists _, _. split; [reflexivity|]. split; [exact Hin|].
  split; [exact Hle|]. split.
  - intros ->. cbn in E. injection E as <- <-. reflexivity.
  - intros (y & Hy & Hsy).
    assert (Hd : In (py_max x l) (ds ++ [sentinel_date])%list) by (rewrite E; exact Hin).
    assert (Hall : forall z, In z ds -> datetime_le z (py_max x l)).
    { intros z Hz. apply Hle. rewrite <- E. apply in_or_app. now left. }
    split; [|exact Hall].
    apply in_app_or in Hd as [Hd|[Hd|[]]]; [exact Hd|].
    assert (sentinel_date = y) as Hy'.
    { apply datetime_le_antisym; [exact Hsy|]. rewrite Hd. now apply Hall. }
    rewrite <- Hd, Hy'. exact Hy.
Qed.

Lemma latest_dump_date_listing_witness :
  exists d w',
    latest_dump_date (sample_handler two_files sample_options) "en" sample_world
    = (Ok d, w')
    /\ In d [mkdate 2023 1 1; mkdate 2023 2 1]
    /\ forall x, In x [mkdate 2023 1 1; mkdate 2023 2 1] -> datetime_le x d.
Proof.
  destruct (latest_dump_date_listing
              (sample_handler two_files sample_options) "en"
              "http://dumps.wikimedia.org/enwiki" ∅
              (mkResp 200 None sample_listing None)
              [mkdate 2023 1 1; mkdate 2023 2 1] sample_world)
    as (d & w' & Hrun & _ & _ & _ & Hmax); try (vm_compute; reflexivity).
  exists d, w'. split; [exact Hrun|].
  apply Hmax. exists (mkdate 2023 1 1). split; [now left|reflexivity].
Defined.

(** C6 as stated fails: the only date on the page is 1899-12-31, and the
    result is the sentinel, which is not a date of the page. *)
Lemma latest_dump_date_before_sentinel :
  let self := sample_handler two_files sample_options in
  date_matcher_findall (listing ["18991231"]) = ["18991231"]
  /\ parse_dates ["18991231"] = Ok [mkdate 1899 12 31]
  /\ fst (latest_dump_date self "en" old_world) = Ok (mkdate 1900 1 1)
  /\ fst (latest_dump_date self "en" old_world)
     <> Ok (py_max (mkdate 1899 12 31) []).
Proof.
  intros self. split; [reflexivity|]. split; [reflexivity|].
  split; [reflexivity|]. vm_compute. discriminate.
Qed.

(** ** One transfer *)

Lemma length_append (a b : string) :
  String.length (a ++ b) = (String.length a + String.length b)%nat.
Proof. induction a as [|x a IH]; [reflexivity|]. cbn. now rewrite IH. Qed.

(** The check of the loop against the counter it keeps: when the blocks
    arrive without fault and take the counter beyond the probed length, the
    loop raises the overrun error. *)
Lemma copy_blocks_overrun (path : string) (content_length : Z)
  (bs : list string) (read : Z) (w : World) (data : string) :
  fs w !! path = Some (RegFile data) ->
  (read <= content_length)%Z ->
  (content_length < read + str_len (String.concat "" bs))%Z ->
  fst (copy_blocks path content_length read (List.map inr bs) w)
  = Raise (overrun path).
Proof.
  revert read w data. induction bs as [|b bs IH]; intros read w data Hp Hr Hs.
  - cbn in Hs. unfold str_len in Hs. cbn in Hs. lia.
  - cbn [List.map copy_blocks]. unfold bind at 1. unfold file_write at 1.
    rewrite Hp.
    destruct (content_length <? read + str_len b)%Z eqn:E; [reflexivity|].
    apply Z.ltb_ge in E.
    apply (IH _ _ (data ++ b)); [|exact E|].
    + unfold set_fs. cbn. apply lookup_insert_eq.
    + assert (str_len (String.concat "" (b :: bs))
              = (str_len b + str_len (String.concat "" bs))%Z) as Hc.
      { unfold str_len. destruct bs as [|b' bs'].
        - change (String.concat "" [b]) with b.
          change (String.length (String.concat "" [])) with 0%nat. lia.
        - change (String.concat "" (b :: b' :: bs'))
            with (b ++ "" ++ String.concat "" (b' :: bs')).
          change ("" ++ String.concat "" (b' :: bs'))
            with (String.concat "" (b' :: bs')).
          rewrite length_append. lia. }
      lia.
Qed.

(** C5: a resumed transfer on which the server sends the whole body again.
    With the progress bar on, the counter starts at the offset 3 and the
    overrun is raised; in quiet mode the counter starts at 0, nothing is
    raised, and the file ends up with 8 bytes against 5 advertised. *)
Theorem retrieve_overrun_quiet :
  let url := "http://dumps.wikimedia.org/enwiki/20230201/x" in
  let path := "/data/x.part" in
  fst (_offset (sample_downloader two_files sample_options) url path partial_world)
  = Ok 3
  /\ fst (retrieve (sample_downloader two_files sample_options) url path
            partial_world)
     = Raise (overrun path)
  /\ fst (retrieve (sample_downloader two_files quiet_options) url path
            partial_world)
     = Ok tt
  /\ fs (snd (retrieve (sample_downloader two_files quiet_options) url path
                partial_world)) !! path
     = Some (RegFile "abchello").
Proof. vm_compute. repeat split; reflexivity. Qed.

(** ** The batch *)

(** An [IOError] met while a language is processed is caught: the two
    error records are logged and the loop goes on with the next
    language. *)
Lemma download_each_skips_on_IOError `{UrlLib} (fuel : nat) (d : WPDownloader)
  (lang : string) (rest : list string) (path : string) (w w1 : World) (e : exn) :
  download_language fuel d lang path
    (snd (LOG INFO "Processing language: %s" [AStr lang] w)) = (Raise e, w1) ->
  is_IOError e = true ->
  download_each fuel d (lang :: rest) path w
  = download_each fuel d rest path
      (snd ((LOG ERROR "Download failed: %s" [AStr lang] ;;
             LOG ERROR "Skipped: %s" [AStr lang]) w1)).
Proof.
  intros Hd He. cbn [download_each]. unfold bind at 1.
  change (LOG INFO "Processing language: %s" [AStr lang] w)
    with (Ok tt, snd (LOG INFO "Processing language: %s" [AStr lang] w)).
  cbv beta iota. unfold bind at 1. unfold try_except at 1.
  rewrite Hd, He. reflexivity.
Qed.

(** Any other exception leaves the loop: the languages after [lang] are
    not processed. *)
Lemma download_each_aborts `{UrlLib} (fuel : nat) (d : WPDownloader)
  (lang : string) (rest : list string) (path : string) (w w1 : World) (e : exn) :
  download_language fuel d lang path
    (snd (LOG INFO "Processing language: %s" [AStr lang] w)) = (Raise e, w1) ->
  is_IOError e = false ->
  download_each fuel d (lang :: rest) path w = (Raise e, w1).
Proof.
  intros Hd He. cbn [download_each]. unfold bind at 1.
  change (LOG INFO "Processing language: %s" [AStr lang] w)
    with (Ok tt, snd (LOG INFO "Processing language: %s" [AStr lang] w)).
  cbv beta iota. unfold bind at 1. unfold try_except at 1.
  rewrite Hd, He. reflexivity.
Qed.

(** C8: two languages are enabled, [en] and [entities].  When the remote
    side is down, both are skipped and the batch ends normally.  When the
    directory of [en] cannot be created, [os.makedirs] raises [OSError],
    which the handler for [IOError] lets through: the batch ends there and
    [entities] is never started.  When the listing of [en] fails only on
    the third fetch, inside the generator, the [None] it hands out raises
    [AttributeError] and the batch ends as well. *)
Theorem download_all_languages_aborts :
  let d := sample_downloader two_languages sample_options in
  let started w :=
    List.filter (fun r => String.eqb (logmsg r) "Processing language: %s") (log w) in
  enabled_languages two_languages = Ok ["en"; "entities"]
  /\ (let r := download_all_languages 5 d "/data" (world_of ∅ server_down) in
      fst r = Ok tt
      /\ started (snd r)
         = [mkLog INFO "Processing language: %s" [AStr "en"];
            mkLog INFO "Processing language: %s" [AStr "entities"]])
  /\ (let r := download_all_languages 5 d "/data" refusing_world in
      fst r = Raise (OSError "Permission denied")
      /\ started (snd r) = [mkLog INFO "Processing language: %s" [AStr "en"]])
  /\ (let r := download_all_languages 5 d "/data" (world_of ∅ flaky_server) in
      fst r = Raise (AttributeError "'NoneType' object has no attribute 'rfind'")
      /\ started (snd r) = [mkLog INFO "Processing language: %s" [AStr "en"]]).
Proof. vm_compute. repeat split; reflexivity. Qed.

(** ** The suffix of partial files *)

Lemma str_len_cons (x : ascii) (a : string) :
  str_len (String x a) = (1 + str_len a)%Z.
Proof. unfold str_len. cbn [String.length]. lia. Qed.

Lemma rfind_aux_app (c : ascii) (a b : string) (i best : Z) :
  rfind_aux c (a ++ b) i best
  = rfind_aux c b (i + str_len a) (rfind_aux c a i best).
Proof.
  revert i best. induction a as [|x a IH]; intros i best.
  - cbn. now rewrite Z.add_0_r.
  - cbn. rewrite IH, str_len_cons. f_equal. lia.
Qed.

Lemma rfind_aux_range (c : ascii) (s : string) (i best : Z) :
  rfind_aux c s i best = best
  \/ (i <= rfind_aux c s i best < i + str_len s)%Z.
Proof.
  revert i best. induction s as [|x s IH]; intros i best; [now left|].
  cbn [rfind_aux]. rewrite str_len_cons.
  pose proof (Zle_0_nat (String.length s)) as Hpos. fold (str_len s) in Hpos.
  destruct (IH (i + 1)%Z (if Ascii.eqb x c then i else best)) as [E|E].
  - rewrite E. destruct (Ascii.eqb x c); [right; lia|now left].
  - right. lia.
Qed.

Lemma rfind_range (c : ascii) (s : string) :
  (-1 <= rfind c s < str_len s)%Z.
Proof.
  unfold rfind. pose proof (Zle_0_nat (String.length s)) as Hpos.
  fold (str_len s) in Hpos.
  destruct (rfind_aux_range c s 0 (-1)) as [->|E]; lia.
Qed.

Lemma str_drop_app (n : nat) (a b : string) :
  (n <= String.length a)%nat -> str_drop n (a ++ b) = str_drop n a ++ b.
Proof.
  revert a. induction n as [|n IH]; intros a Hn; [reflexivity|].
  destruct a as [|x a]; cbn in *; [lia|]. apply IH. lia.
Qed.

Lemma str_take_app (a b : string) : str_take (String.length a) (a ++ b) = a.
Proof. induction a as [|x a IH]; cbn; [now destruct b|now rewrite IH]. Qed.

Lemma str_drop_length (n : nat) (a : string) :
  String.length (str_drop n a) = (String.length a - n)%nat.
Proof.
  revert a. induction n as [|n IH]; intros a; cbn; [lia|].
  destruct a as [|x a]; cbn; [reflexivity|apply IH].
Qed.

(** Where the destination's file name holds a character other than a dot,
    [splitext] of the suffixed path gives back the destination. *)
Lemma splitext_part (path : string) :
  str_all is_dot (basename path) = false ->
  splitext (path ++ ".part") = (path, ".part").
Proof.
  intros Hb. unfold splitext.
  assert (Hdot : rfind "." (path ++ ".part") = str_len path).
  { unfold rfind. rewrite rfind_aux_app. cbn. lia. }
  assert (Hsep : rfind "/" (path ++ ".part") = rfind "/" path).
  { unfold rfind. rewrite rfind_aux_app. reflexivity. }
  rewrite Hdot, Hsep.
  pose proof (rfind_range "/" path) as Hr.
  set (sep := rfind "/" path) in *.
  assert (Hlt : (sep <? str_len path)%Z = true) by (apply Z.ltb_lt; lia).
  assert (Hslice : slice (path ++ ".part") (sep + 1) (str_len path) = basename path).
  { unfold slice, basename, slice_from. fold sep.
    rewrite str_drop_app by (unfold str_len in Hr; lia).
    replace (Z.to_nat (str_len path - (sep + 1)))
      with (String.length (str_drop (Z.to_nat (sep + 1)) path))
      by (rewrite str_drop_length; unfold str_len in *; lia).
    apply str_take_app. }
  rewrite Hlt, Hslice, Hb. cbn [andb negb]. f_equal.
  - unfold slice. rewrite Z.sub_0_r. unfold str_len. rewrite Nat2Z.id.
    cbn [Z.to_nat str_drop]. apply str_take_app.
  - unfold slice_from, str_len. rewrite Nat2Z.id.
    rewrite str_drop_app by lia.
    replace (str_drop (String.length path) path) with ""; [reflexivity|].
    clear. induction path as [|x a IH]; [reflexivity|exact IH].
Qed.

Lemma part_neq (path : string) : path ++ ".part" <> path.
Proof.
  intros E. apply (f_equal String.length) in E.
  rewrite length_append in E. cbn in E. lia.
Qed.

(** ** The retry loop *)

Lemma copy_blocks_regfile (path : string) (content_length : Z)
  (rs : list (exn + string)) (read : Z) (w : World) (data : string) :
  fs w !! path = Some (RegFile data) ->
  exists data',
    fs (snd (copy_blocks path content_length read rs w)) !! path
    = Some (RegFile data').
Proof.
  revert read w data. induction rs as [|[e|b] rs IH]; intros read w data Hp.
  - cbn. eauto.
  - cbn. eauto.
  - cbn [copy_blocks]. unfold bind at 1. unfold file_write at 1. rewrite Hp.
    assert (Hp' : fs (set_fs (insert path (RegFile (data ++ b))) w) !! path
                  = Some (RegFile (data ++ b))).
    { unfold set_fs. cbn. apply lookup_insert_eq. }
    destruct (content_length <? read + str_len b)%Z.
    + unfold raise. cbn [snd]. eauto.
    + eapply IH. exact Hp'.
Qed.

Lemma offset_frame (self : WPDownloader) (url path : string) (w : World) :
  fs (snd (_offset self url path w)) = fs w.
Proof.
  unfold _offset.
  destruct (resume (_options self) && os_path_exists path w); [|reflexivity].
  unfold bind, os_path_getsize.
  destruct (fs w !! path) as [[d|sz]|]; cbn; try reflexivity;
    pose proof (remote_content_length_frame self url w) as (Hfs & _);
    destruct (_remote_content_length self url w) as [[remote| |] w'];
    cbn in *; try exact Hfs;
    match goal with |- context [(?a <=? ?b)%Z] => destruct (a <=? b)%Z end;
    exact Hfs.
Qed.

(** A transfer that returns leaves a regular file at the path it wrote. *)
Lemma retrieve_ok_regfile (self : WPDownloader) (url path : string)
  (w w1 : World) :
  retrieve self url path w = (Ok tt, w1) ->
  exists data, fs w1 !! path = Some (RegFile data).
Proof.
  unfold retrieve. unfold bind at 1.
  destruct (_offset self url path w) as [[offset| |] w0]; try discriminate.
  unfold bind at 1. unfold urlopen.
  destruct (net w0 (conns w0) (mkReq url (Some offset))) as [e|r];
    try discriminate.
  destruct (300 <=? getcode r)%Z; [discriminate|].
  unfold bind at 1.
  set (wa := mkWorld (fs w0) (refused w0) (net w0) (S (conns w0)) (log w0)).
  destruct (open_append path wa) as [[[]| |] wb] eqn:Hop; try discriminate.
  assert (Hb : exists d, fs wb !! path = Some (RegFile d)).
  { unfold open_append in Hop.
    destruct (fs wa !! path) as [[d|sz]|] eqn:Hp.
    - injection Hop as <-. eauto.
    - discriminate.
    - destruct (parent_error path wa); [discriminate|].
      injection Hop as <-. unfold set_fs. cbn. rewrite lookup_insert_eq. eauto. }
  unfold bind at 1.
  assert (Hlog : exists wc,
             (if (offset =? 0)%Z then ret tt
              else LOG INFO "Resume: %s" [AStr (basename path)]) wb = (Ok tt, wc)
             /\ fs wc = fs wb).
  { destruct (offset =? 0)%Z; unfold ret, LOG; eauto. }
  destruct Hlog as (wc & -> & Hfc).
  unfold bind at 1.
  pose proof (remote_content_length_frame self url wc) as (Hfd & _).
  destruct (_remote_content_length self url wc) as [[cl| |] wd];
    try discriminate.
  cbn [snd] in Hfd. destruct Hb as (d & Hd).
  intros Hcopy.
  destruct (copy_blocks_regfile path cl (reads r)
              (if negb (quiet (_options self)) && negb (offset =? 0)%Z
               then offset else 0) wd d) as (d' & Hd').
  { now rewrite Hfd, Hfc. }
  rewrite Hcopy in Hd'. eauto.
Qed.

(** A caught failure makes the round answer [False], so the loop goes
    on. *)
Lemma attempt_failed (self : WPDownloader) (url path : string)
  (w w1 w2 : World) (e : exn) (h : M bool) :
  retrieve self url path w = (Raise e, w1) ->
  retrieve_file_except e = Some h ->
  h w1 = (Ok false, w2) ->
  attempt self url path w = (Ok false, w2).
Proof.
  intros Hr He Hh. unfold attempt, try_except. unfold bind at 1.
  rewrite Hr, He. exact Hh.
Qed.

(** [k] failed rounds use up [k] units of fuel and raise the counter by
    [k], as long as the counter does not meet the limit on the way. *)
Lemma retrieve_file_loop_failed (self : WPDownloader) (url path : string)
  (k : nat) (w wk : World) :
  failed_attempts self url path k w wk ->
  forall (fuel : nat) (tries : Z),
    (forall i, (i < k)%nat -> (tries + Z.of_nat i)%Z <> retries (_options self)) ->
    retrieve_file_loop (k + fuel) self url path tries w
    = retrieve_file_loop fuel self url path (tries + Z.of_nat k) wk.
Proof.
  induction 1 as [w|k w w1 w2 w3 e h Hr He Hh _ IH]; intros fuel tries Hne.
  - cbn. now rewrite Z.add_0_r.
  - cbn [Nat.add retrieve_file_loop].
    assert (E : (tries =? retries (_options self))%Z = false).
    { apply Z.eqb_neq. specialize (Hne 0%nat). rewrite Z.add_0_r in Hne.
      apply Hne. lia. }
    rewrite E. unfold bind at 1.
    rewrite (attempt_failed _ _ _ _ _ _ _ _ Hr He Hh).
    rewrite IH.
    + f_equal. lia.
    + intros i Hi. specialize (Hne (S i)). lia.
Qed.

(** The retry loop where the rename works.  Let [k] attempts in a row fail
    with errors the loop catches.  If [k] is below the retry limit and the
    next attempt succeeds, then, for a destination whose file name is not
    made of dots only and that is not a directory, [retrieve_file] returns
    normally and
    the partial file has been renamed: its data is at the destination and
    nothing is left at the suffixed path.  If [k] equals the limit,
    [retrieve_file] raises the retry-limit [DownloadError] and leaves the
    world as the last failed attempt left it: no rename took place. *)
Theorem retrieve_file_retry (self : WPDownloader) (url path : string)
  (k fuel : nat) (w wk : World) :
  failed_attempts self url (path ++ ".part") k w wk ->
  (k < fuel)%nat ->
  (forall w1,
     (Z.of_nat k < retries (_options self))%Z ->
     retrieve self url (path ++ ".part") wk = (Ok tt, w1) ->
     str_all is_dot (basename path) = false ->
     (forall sz, fs w1 !! path <> Some (Directory sz)) ->
     exists data w2,
       retrieve_file fuel self url path w = (Ok tt, w2)
       /\ fs w1 !! (path ++ ".part") = Some (RegFile data)
       /\ fs w2 = <[path := RegFile data]> (delete (path ++ ".part") (fs w1))
       /\ fs w2 !! path = Some (RegFile data)
       /\ fs w2 !! (path ++ ".part") = None)
  /\ (Z.of_nat k = retries (_options self) ->
      retrieve_file fuel self url path w
      = (Raise (retry_limit_exceeded url), wk)).
Proof.
  intros Hk Hfuel.
  destruct (Nat.le_exists_sub (S k) fuel Hfuel) as (f & -> & _).
  replace (f + S k)%nat with (k + S f)%nat by lia.
  unfold retrieve_file. split.
  - intros w1 Hlim Hok Hdots Hdir.
    rewrite (retrieve_file_loop_failed _ _ _ _ _ _ Hk) by (intros; lia).
    cbn [retrieve_file_loop]. rewrite Z.add_0_l.
    replace (Z.of_nat k =? retries (_options self))%Z with false
      by (symmetry; apply Z.eqb_neq; lia).
    destruct (retrieve_ok_regfile _ _ _ _ _ Hok) as (data & Hdata).
    exists data.
    unfold bind at 1. unfold attempt, try_except. unfold bind at 1.
    rewrite Hok. unfold bind at 1. rewrite (splitext_part _ Hdots).
    cbn [fst]. unfold os_rename. rewrite Hdata.
    replace (String.eqb (path ++ ".part") path) with false
      by (symmetry; apply String.eqb_neq, part_neq).
    assert (Hnew : (<[path := RegFile data]> (delete (path ++ ".part") (fs w1)))
                   !! (path ++ ".part") = None).
    { rewrite lookup_insert_ne by (intros E; symmetry in E; now apply part_neq in E).
      apply lookup_delete_eq. }
    destruct (fs w1 !! path) as [[d|sz]|] eqn:Hp.
    + eexists. split; [unfold ret; reflexivity|].
      unfold set_fs. cbn [fs]. repeat split; auto. apply lookup_insert_eq.
    + now destruct (Hdir sz).
    + eexists. split; [unfold ret; reflexivity|].
      unfold set_fs. cbn [fs]. repeat split; auto. apply lookup_insert_eq.
  - intros Hlim.
    rewrite (retrieve_file_loop_failed _ _ _ _ _ _ Hk) by (intros; lia).
    cbn [retrieve_file_loop]. rewrite Z.add_0_l, Hlim, Z.eqb_refl. reflexivity.
Qed.

(** The run against [late_server]: one failed attempt, then success. *)
Lemma late_server_fails_once (opts : Options) :
  resume opts = true ->
  failed_attempts (sample_downloader two_files opts) file_url_x
    ("/data/x" ++ ".part") 1 (late_world) after_failure.
Proof.
  destruct opts as [n f r q c]. cbn. intros ->.
  apply failed_attempt
    with (w1 := mkWorld {["/data" := Directory 4096]} ∅ late_server 1 [])
         (w2 := after_failure)
         (e := IOError "socket error")
         (h := (LOG ERROR "%s" [AExn (IOError "socket error")] ;; ret false)).
  - vm_compute. reflexivity.
  - reflexivity.
  - vm_compute. reflexivity.
  - apply no_attempt.
Qed.

Lemma late_server_then_succeeds :
  retrieve (sample_downloader two_files sample_options) file_url_x
    ("/data/x" ++ ".part") after_failure = (Ok tt, after_success).
Proof. vm_compute. reflexivity. Qed.

Lemma retrieve_file_retry_witness :
  (exists data w2,
     retrieve_file 5 (sample_downloader two_files sample_options)
       file_url_x "/data/x" (late_world) = (Ok tt, w2)
     /\ fs w2 !! "/data/x" = Some (RegFile data)
     /\ fs w2 !! "/data/x.part" = None)
  /\ retrieve_file 5 (sample_downloader two_files one_retry_options)
       file_url_x "/data/x" (late_world)
     = (Raise (retry_limit_exceeded file_url_x), after_failure).
Proof.
  split.
  - destruct (proj1 (retrieve_file_retry
                       (sample_downloader two_files sample_options)
                       file_url_x "/data/x" 1 5 (late_world)
                       after_failure
                       (late_server_fails_once sample_options eq_refl)
                       ltac:(lia))
                after_success ltac:(cbn; lia) late_server_then_succeeds eq_refl)
      as (data & w2 & Hrun & _ & _ & Hdst & Hsrc).
    { intros sz. vm_compute. discriminate. }
    exists data, w2. auto.
  - apply (proj2 (retrieve_file_retry
                    (sample_downloader two_files one_retry_options)
                    file_url_x "/data/x" 1 5 (late_world)
                    after_failure
                    (late_server_fails_once one_retry_options eq_refl)
                    ltac:(lia))).
    reflexivity.
Defined.

(** Where a directory stands at the destination the transfer succeeds
    and the rename raises [OSError], which no clause of [retrieve_file]
    catches. *)
Lemma retrieve_file_onto_directory :
  let d := sample_downloader two_files sample_options in
  let r := retrieve_file 5 d file_url_x "/data/x" directory_world in
  fst (retrieve d file_url_x "/data/x.part" directory_world) = Ok tt
  /\ fst r = Raise (OSError "Is a directory")
  /\ fs (snd r) !! "/data/x.part" = Some (RegFile "hello").
Proof. vm_compute. repeat split; reflexivity. Qed.

(** ** The suffix that stays *)

(** For a file name made of dots only (the empty name included),
    [splitext] finds no extension in the suffixed path: the target of the
    rename is the suffixed path itself. *)
Lemma splitext_dots (path : string) :
  str_all is_dot (basename path) = true ->
  splitext (path ++ ".part") = (path ++ ".part", "").
Proof.
  intros Hb. unfold splitext.
  assert (Hdot : rfind "." (path ++ ".part") = str_len path).
  { unfold rfind. rewrite rfind_aux_app. cbn. lia. }
  assert (Hsep : rfind "/" (path ++ ".part") = rfind "/" path).
  { unfold rfind. rewrite rfind_aux_app. reflexivity. }
  rewrite Hdot, Hsep.
  pose proof (rfind_range "/" path) as Hr.
  set (sep := rfind "/" path) in *.
  assert (Hslice : slice (path ++ ".part") (sep + 1) (str_len path) = basename path).
  { unfold slice, basename, slice_from. fold sep.
    rewrite str_drop_app by (unfold str_len in Hr; lia).
    replace (Z.to_nat (str_len path - (sep + 1)))
      with (String.length (str_drop (Z.to_nat (sep + 1)) path))
      by (rewrite str_drop_length; unfold str_len in *; lia).
    apply str_take_app. }
  rewrite Hslice, Hb. cbn [negb]. now rewrite andb_false_r.
Qed.

(** With such a file name a transfer that succeeds leaves its data under
    the suffix: [retrieve_file] returns normally in the very world the
    transfer has left, nothing is renamed. *)
Lemma retrieve_file_dots (self : WPDownloader) (url path : string)
  (fuel : nat) (w w1 : World) :
  str_all is_dot (basename path) = true ->
  (0 <> retries (_options self))%Z ->
  retrieve self url (path ++ ".part") w = (Ok tt, w1) ->
  retrieve_file (S fuel) self url path w = (Ok tt, w1).
Proof.
  intros Hb Hlim Hok. unfold retrieve_file. cbn [retrieve_file_loop].
  replace (0 =? retries (_options self))%Z with false
    by (symmetry; now apply Z.eqb_neq).
  destruct (retrieve_ok_regfile _ _ _ _ _ Hok) as (data & Hdata).
  unfold bind at 1. unfold attempt, try_except. unfold bind at 1.
  rewrite Hok. unfold bind at 1. rewrite (splitext_dots _ Hb). cbn [fst].
  unfold os_rename. rewrite Hdata, String.eqb_refl. reflexivity.
Qed.

(** C1: a transfer that succeeds at the first attempt, for a URL whose
    file name is [...] and for one that ends in a slash (empty file name).
    [retrieve_file] returns normally, but the rename it attempts has the
    suffixed path as its target: the data stays under the [.part] suffix
    and no file appears at the destination. *)
Theorem retrieve_file_keeps_part_suffix :
  let d := sample_downloader two_files sample_options in
  (os_path_join "/data" [basename dots_url] = "/data/..."
   /\ splitext ("/data/..." ++ ".part") = ("/data/....part", "")
   /\ let r := retrieve_file 5 d dots_url "/data/..." data_dir_world in
      fst (retrieve d dots_url "/data/....part" data_dir_world) = Ok tt
      /\ fst r = Ok tt
      /\ fs (snd r) !! "/data/..." = None
      /\ fs (snd r) !! "/data/....part" = Some (RegFile "hello"))
  /\ (os_path_join "/data" [basename slash_url] = "/data/"
      /\ splitext ("/data/" ++ ".part") = ("/data/.part", "")
      /\ let r := retrieve_file 5 d slash_url "/data/" data_dir_world in
         fst (retrieve d slash_url "/data/.part" data_dir_world) = Ok tt
         /\ fst r = Ok tt
         /\ fs (snd r) !! "/data/.part" = Some (RegFile "hello")).
Proof. vm_compute. repeat split; reflexivity. Qed.

(** * Further properties *)

(** ** Configuration *)

Lemma _enabled_options_raises (self : Configuration) (section : string)
  (opts : list string) (e : exn) :
  _enabled_options self section opts = Raise e -> is_ValueError e = false.
Proof.
  induction opts as [|o opts IH]; cbn; [discriminate|].
  destruct (getboolean self section o) as [b|e'|]; [| |discriminate].
  - destruct (_enabled_options self section opts) as [l|e''|]; cbn;
      try discriminate.
    intros [= <-]. now apply IH.
  - destruct (is_ValueError e') eqn:E; intros [= <-]; [reflexivity|exact E].
Qed.

Lemma _enabled_options_bad_value (self : Configuration) (section : string)
  (opts : list string) (opt msg : string) :
  In opt opts ->
  getboolean self section opt = Raise (ValueError msg) ->
  (forall o e, In o opts -> getboolean self section o = Raise e ->
               is_ValueError e = true) ->
  _enabled_options self section opts
  = Raise (ConfigValueError (config_file_path self) section).
Proof.
  intros Hin Hbad Hall. induction opts as [|o opts IH]; [destruct Hin|].
  cbn. destruct (getboolean self section o) as [b|e|] eqn:Ho.
  - destruct Hin as [->|Hin]; [congruence|].
    rewrite IH; [reflexivity|exact Hin|].
    intros o' e' Ho'. apply Hall. now right.
  - rewrite (Hall o e (or_introl eq_refl) Ho). reflexivity.
  - destruct Hin as [->|Hin]; [congruence|].
    clear IH. exfalso. revert Ho. unfold getboolean, get.
    destruct (assoc section (sections self)) as [os|]; [|discriminate].
    destruct (assoc (lower o) os); [|discriminate]. cbn.
    repeat match goal with |- context [if ?c then _ else _] => destruct c end;
      discriminate.
Qed.

(** X1: [enabled_options] never lets a [ValueError] out: a value that is no
    boolean word surfaces as [ConfigValueError] with the path of the
    configuration file and the section. *)
Theorem enabled_options_value_error (self : Configuration) (section : string) :
  (forall e, enabled_options self section = Raise e -> is_ValueError e = false)
  /\ (forall opts opt msg,
        options self section = Ok opts ->
        In opt opts ->
        getboolean self section opt = Raise (ValueError msg) ->
        (forall o e, In o opts -> getboolean self section o = Raise e ->
                     is_ValueError e = true) ->
        enabled_options self section
        = Raise (ConfigValueError (config_file_path self) section)).
Proof.
  unfold enabled_options. split.
  - intros e. destruct (options self section) as [opts|e'|] eqn:Ho; cbn.
    + destruct (_enabled_options self section opts) as [l|e''|] eqn:Hl; cbn;
        try discriminate.
      intros [= <-]. exact (_enabled_options_raises _ _ _ _ Hl).
    + intros [= <-]. unfold options in Ho.
      destruct (assoc section (sections self)); [discriminate|].
      now injection Ho as <-.
    + discriminate.
  - intros opts opt msg -> Hin Hbad Hall. cbn.
    now rewrite (_enabled_options_bad_value _ _ _ _ _ Hin Hbad Hall).
Qed.

Lemma enabled_options_value_error_witness :
  enabled_files bad_value_config
  = Raise (ConfigValueError "wpdownloadrc" "Files").
Proof.
  apply (proj2 (enabled_options_value_error bad_value_config "Files")
           ["abstract"; "pages-articles"] "pages-articles" "Not a boolean: maybe").
  - reflexivity.
  - right. now left.
  - reflexivity.
  - intros o e [<-|[<-|[]]]; vm_compute; [discriminate|].
    intros [= <-]. reflexivity.
Defined.

(** X2: [string_template] gives the text of a template that is there; for one
    that is missing from the section [Templates] it raises
    [TemplateMissingError] with the file and the template's name, never
    [NoOptionError]; without the section it raises [NoSectionError]. *)
Theorem string_template_missing (self : Configuration) (name : string) :
  (forall e, string_template self name = Raise e ->
     e = NoSectionError "Templates"
     \/ e = TemplateMissingError (config_file_path self) name)
  /\ (forall opts, assoc "Templates" (sections self) = Some opts ->
        string_template self name
        = match assoc (lower name) opts with
          | Some text => Ok text
          | None => Raise (TemplateMissingError (config_file_path self) name)
          end)
  /\ (assoc "Templates" (sections self) = None ->
      string_template self name = Raise (NoSectionError "Templates")).
Proof.
  unfold string_template, get.
  destruct (assoc "Templates" (sections self)) as [opts|].
  - split; [|split; [|discriminate]].
    + intros e. destruct (assoc (lower name) opts); [discriminate|].
      intros [= <-]. now right.
    + intros opts' [= <-]. now destruct (assoc (lower name) opts).
  - split; [|split; [discriminate|reflexivity]].
    intros e [= <-]. now left.
Qed.

Lemma string_template_missing_witness :
  string_template no_file_format_config "file_format"
  = Raise (TemplateMissingError "wpdownloadrc" "file_format")
  /\ string_template no_file_format_config "language_dir_format"
     = Ok "${langcode}wiki".
Proof.
  split.
  - exact (proj1 (proj2 (string_template_missing no_file_format_config
                           "file_format"))
             [("language_dir_format", "${langcode}wiki")] eq_refl).
  - exact (proj1 (proj2 (string_template_missing no_file_format_config
                           "language_dir_format"))
             [("language_dir_format", "${langcode}wiki")] eq_refl).
Defined.

(** ** Custom dates *)

Lemma split_colon_without (s : string) :
  contains ":" s = false -> split_colon s = [s].
Proof.
  induction s as [|c s IH]; [reflexivity|]. cbn.
  destruct (Ascii.eqb c ":"); [discriminate|]. cbn. intros H.
  now rewrite (IH H).
Qed.

Lemma split_colon_with (a b : string) :
  contains ":" a = false -> split_colon (a ++ String ":" b) = [a; b].
Proof.
  induction a as [|c a IH]; [reflexivity|]. cbn.
  destruct (Ascii.eqb c ":"); [discriminate|]. cbn. intros H.
  now rewrite (IH H).
Qed.

Lemma split_colon_shape (s : string) :
  (contains ":" s = false /\ split_colon s = [s])
  \/ (contains ":" s = true /\ exists k v, split_colon s = [k; v]).
Proof.
  induction s as [|c s IH]; [now left|]. cbn.
  destruct (Ascii.eqb c ":"); cbn; [right; eauto|].
  destruct IH as [[H ->]|[H (k & v & ->)]]; [now left|right; eauto].
Qed.

Lemma custom_dates_bad_pair (pairs : list string) (p : string)
  (acc : gmap string string) :
  In p pairs -> contains ":" p = false ->
  custom_dates acc pairs = Raise dict_error.
Proof.
  revert acc. induction pairs as [|q pairs IH]; intros acc Hin Hp; [destruct Hin|].
  cbn. destruct (split_colon_shape q) as [[_ ->]|[Hq (k & v & ->)]].
  - reflexivity.
  - destruct Hin as [->|Hin]; [congruence|]. now apply IH.
Qed.

Lemma custom_dates_app (l l' : list string) (acc : gmap string string) :
  custom_dates acc (l ++ l')%list
  = (let? m := custom_dates acc l in custom_dates m l').
Proof.
  revert acc. induction l as [|q l IH]; intros acc; [reflexivity|].
  cbn. destruct (split_colon q) as [|k [|v [|]]]; try reflexivity. apply IH.
Qed.

Lemma custom_dates_well_formed (l : list string) (acc : gmap string string) :
  Forall (fun p => contains ":" p = true) l ->
  exists m, custom_dates acc l = Ok m.
Proof.
  revert acc. induction l as [|q l IH]; intros acc Hall; [cbn; eauto|].
  inversion Hall as [|? ? Hq Hl]; subst. cbn.
  destruct (split_colon_shape q) as [[Hq' _]|[_ (k & v & ->)]]; [congruence|].
  now apply IH.
Qed.

(** X3: One pair without a colon among the custom dates makes
    [latest_dump_date] raise [ValueError] for every language, also those
    the pairs do not mention, before anything else is done. *)
Theorem latest_dump_date_bad_pair `{UrlLib} (self : URLHandler)
  (p language : string) (w : World) :
  In p (_custom_dump self) ->
  contains ":" p = false ->
  latest_dump_date self language w = (Raise dict_error, w).
Proof.
  intros Hin Hp. unfold latest_dump_date, bind, lift.
  now rewrite (custom_dates_bad_pair _ p ∅ Hin Hp).
Qed.

Lemma latest_dump_date_bad_pair_witness :
  latest_dump_date (sample_handler two_files bad_override_options) "fr"
    sample_world
  = (Raise dict_error, sample_world).
Proof.
  apply (latest_dump_date_bad_pair _ "de20221201").
  - right. now left.
  - reflexivity.
Defined.

(** X4: When a language is given several custom dates, the last one counts:
    it is the date returned, without any connection. *)
Theorem latest_dump_date_last_override `{UrlLib} (self : URLHandler)
  (earlier : list string) (language v : string) (d : datetime) (w : World) :
  _custom_dump self = (earlier ++ [(language ++ ":" ++ v)%string])%list ->
  Forall (fun p => contains ":" p = true) earlier ->
  contains ":" language = false ->
  strptime v = Ok d ->
  latest_dump_date self language w = (Ok d, w).
Proof.
  intros Hc Hall Hl Hd. unfold latest_dump_date, bind, lift.
  rewrite Hc, custom_dates_app.
  destruct (custom_dates_well_formed earlier ∅ Hall) as (m & ->).
  cbn [obind custom_dates].
  change (language ++ ":" ++ v) with (language ++ String ":" v).
  rewrite (split_colon_with _ _ Hl).
  cbn [custom_dates]. rewrite lookup_insert_eq, Hd. reflexivity.
Qed.

Lemma latest_dump_date_last_override_witness :
  latest_dump_date (sample_handler two_files two_overrides_options) "en"
    (world_of ∅ server_down)
  = (Ok (mkdate 2023 3 15), world_of ∅ server_down).
Proof.
  apply (latest_dump_date_last_override _ ["en:20230101"; "de:20221201"]
           "en" "20230315").
  - reflexivity.
  - repeat constructor.
  - reflexivity.
  - reflexivity.
Defined.

(** ** Discovery *)

Lemma findall_from_tokens (page : string) (skip : nat) :
  Forall eight_digits (findall_from skip page).
Proof.
  revert skip. induction page as [|c page IH]; intros skip; [constructor|].
  cbn [findall_from]. destruct skip as [|k]; [|apply IH].
  destruct (match_here (String c page)) as [[tok len]|] eqn:Hm; [|apply IH].
  constructor; [|apply IH].
  unfold match_here in Hm.
  destruct (String.prefix anchor_open (String c page)); [|discriminate].
  destruct ((String.length (str_take 8 (str_drop 9 (String c page))) =? 8)%nat
            && str_all is_digit (str_take 8 (str_drop 9 (String c page)))
            && String.prefix anchor_mid (str_drop 8 (str_drop 9 (String c page))))
    eqn:Hg; [|discriminate].
  apply andb_prop in Hg as [Hg _]. apply andb_prop in Hg as [Hlen Hdig].
  destruct (last_end _ _ _ _); [|discriminate].
  injection Hm as <- _. split; [now apply Nat.eqb_eq|exact Hdig].
Qed.

(** X5: Every token the date matcher finds on a page is made of exactly eight
    decimal digits, whatever the page. *)
Theorem date_matcher_tokens (page : string) :
  Forall eight_digits (date_matcher_findall page).
Proof.
  unfold date_matcher_findall. generalize 0%nat as skip.
  induction page as [|c page IH]; intros skip; [constructor|].
  cbn [findall_from]. destruct skip as [|k]; [|apply IH].
  destruct (match_here (String c page)) as [[tok len]|] eqn:Hm; [|apply IH].
  constructor; [|apply IH].
  pose proof (findall_from_tokens (String c page) 0) as Hall.
  cbn [findall_from] in Hall. rewrite Hm in Hall.
  now inversion Hall.
Qed.

Lemma latest_dump_date_fetch_fails `{UrlLib} (self : URLHandler)
  (language url : string) (m : gmap string string) (e : exn) (w : World) :
  custom_dates ∅ (_custom_dump self) = Ok m ->
  m !! language = None ->
  language_url self language = Ok url ->
  net w (conns w) (mkReq url None) = inl e ->
  is_IOError e = true ->
  latest_dump_date self language w
  = (Raise e,
     mkWorld (fs w) (refused w) (net w) (S (conns w))
       (log w ++ [mkLog ERROR "%s" [AExn e];
                  mkLog ERROR "Could not retrieve: %s" [AStr url]])).
Proof.
  intros Hm Hl Hu Hn He. unfold latest_dump_date, dump_dates. unfold_monad.
  rewrite Hm, Hl, Hu, Hn, He. cbn. now rewrite <- app_assoc.
Qed.

(** X6: Without a custom date, a listing that cannot be fetched makes
    [latest_dump_date] raise the very [IOError] of the connection, after
    two error records; one connection was opened and the file system is as
    before. *)
Theorem latest_dump_date_io_error `{UrlLib} (self : URLHandler)
  (language url : string) (m : gmap string string) (e : exn) (w : World) :
  custom_dates ∅ (_custom_dump self) = Ok m ->
  m !! language = None ->
  language_url self language = Ok url ->
  net w (conns w) (mkReq url None) = inl e ->
  is_IOError e = true ->
  latest_dump_date self language w
  = (Raise e,
     mkWorld (fs w) (refused w) (net w) (S (conns w))
       (log w ++ [mkLog ERROR "%s" [AExn e];
                  mkLog ERROR "Could not retrieve: %s" [AStr url]])).
Proof.
  intros Hm Hl Hu Hn He. unfold latest_dump_date, dump_dates. unfold_monad.
  rewrite Hm, Hl, Hu, Hn, He. cbn. now rewrite <- app_assoc.
Qed.

Lemma latest_dump_date_io_error_witness :
  fst (latest_dump_date (sample_handler two_files sample_options) "en"
         (world_of ∅ server_down))
  = Raise (IOError "socket error").
Proof.
  rewrite (latest_dump_date_io_error
             (sample_handler two_files sample_options) "en"
             "http://dumps.wikimedia.org/enwiki" ∅ (IOError "socket error")
             (world_of ∅ server_down)); reflexivity.
Defined.

(** ** One transfer, block by block *)

Lemma concat_cons (b : string) (bs : list string) :
  String.concat "" (b :: bs) = b ++ String.concat "" bs.
Proof.
  destruct bs as [|b' bs]; [|reflexivity].
  change (String.concat "" [b]) with b. cbn. now rewrite append_empty_r.
Qed.

Lemma str_len_append (a b : string) :
  str_len (a ++ b) = (str_len a + str_len b)%Z.
Proof. unfold str_len. rewrite length_append. lia. Qed.

Lemma str_len_nonneg (a : string) : (0 <= str_len a)%Z.
Proof. unfold str_len. lia. Qed.

(** While the counter stays within the probed length, the loop appends
    each block to the file and touches nothing else. *)
Lemma copy_blocks_prefix (path : string) (cl : Z) (bs : list string)
  (tail : list (exn + string)) (read : Z) (w : World) (d : string) :
  fs w !! path = Some (RegFile d) ->
  (read + str_len (String.concat "" bs) <= cl)%Z ->
  exists w',
    copy_blocks path cl read (List.map inr bs ++ tail)%list w
    = copy_blocks path cl (read + str_len (String.concat "" bs)) tail w'
    /\ fs w' = <[path := RegFile (d ++ String.concat "" bs)]> (fs w)
    /\ refused w' = refused w /\ net w' = net w
    /\ conns w' = conns w /\ log w' = log w.
Proof.
  revert read w d. induction bs as [|b bs IH]; intros read w d Hp Hle.
  - exists w. cbn [List.map app]. change (String.concat "" []) with "".
    rewrite append_empty_r, (insert_id _ _ _ Hp).
    change (str_len "") with 0%Z. rewrite Z.add_0_r. repeat split.
  - rewrite concat_cons, str_len_append in *.
    pose proof (str_len_nonneg (String.concat "" bs)) as Hn.
    cbn [List.map app copy_blocks]. unfold bind at 1. unfold file_write at 1.
    rewrite Hp.
    replace (cl <? read + str_len b)%Z with false
      by (symmetry; apply Z.ltb_ge; lia).
    set (w1 := set_fs (insert path (RegFile (d ++ b))) w).
    destruct (IH (read + str_len b)%Z w1 (d ++ b)) as (w' & Hrun & Hfs & Hrest).
    { unfold w1, set_fs. cbn. apply lookup_insert_eq. }
    { lia. }
    exists w'. rewrite Hrun, Hfs. split; [f_equal; lia|]. split.
    + unfold w1, set_fs. cbn [fs]. now rewrite insert_insert_eq, append_assoc.
    + exact Hrest.
Qed.

Lemma str_take_drop (n : nat) (s : string) : str_take n s ++ str_drop n s = s.
Proof.
  revert s. induction n as [|n IH]; intros s; [reflexivity|].
  destruct s as [|c s]; [reflexivity|]. cbn. now rewrite IH.
Qed.

(** The blocks put together are the body. *)
Lemma blocks_of_concat (fuel size : nat) (s : string) :
  (0 < size)%nat -> (String.length s <= fuel)%nat ->
  String.concat "" (blocks_of fuel size s) = s.
Proof.
  intros Hsize. revert s. induction fuel as [|fuel IH]; intros s Hlen.
  - destruct s; [reflexivity|cbn in Hlen; lia].
  - cbn [blocks_of]. destruct s as [|c s]; [reflexivity|].
    rewrite concat_cons, IH; [apply str_take_drop|].
    rewrite str_drop_length. cbn [String.length] in *. lia.
Qed.

Lemma blocks_concat (r : Response) : String.concat "" (blocks r) = body r.
Proof.
  unfold blocks. apply blocks_of_concat; [|lia].
  unfold block_size. lia.
Qed.

Section Transfer.
Variables (self : WPDownloader) (url path : string) (w w0 : World).
Variables (offset cl : Z) (r : Response).

(** The local copy before the attempt. *)
Let old : string :=
  match fs w !! path with Some (RegFile d) => d | _ => "" end.

(** Where the counter of bytes starts. *)
Let start : Z :=
  if negb (quiet (_options self)) && negb (offset =? 0)%Z then offset else 0%Z.

Hypothesis Hoffset : _offset self url path w = (Ok offset, w0).
Hypothesis Hopen : net w0 (conns w0) (mkReq url (Some offset)) = inr r.
Hypothesis Hcode : (getcode r < 300)%Z.
Hypothesis Hnodir : forall sz, fs w !! path <> Some (Directory sz).
Hypothesis Hparent : parent_is_directory path w.
Hypothesis Hprobe :
  fst (_remote_content_length self url
         (mkWorld (fs w0) (refused w0) (net w0) (S (conns w0)) (log w0)))
  = Ok cl.

(** The attempt up to the loop: the loop then runs on a world whose file
    at [path] holds the old data. *)
Lemma retrieve_reaches_loop :
  exists wd,
    retrieve self url path w = copy_blocks path cl start (reads r) wd
    /\ fs wd = <[path := RegFile old]> (fs w).
Proof.
  unfold retrieve. unfold bind at 1. rewrite Hoffset.
  unfold bind at 1. unfold urlopen. rewrite Hopen.
  replace (300 <=? getcode r)%Z with false by (symmetry; apply Z.leb_gt; lia).
  pose proof (offset_frame self url path w) as Hf0. rewrite Hoffset in Hf0.
  cbn [snd] in Hf0.
  set (wa := mkWorld (fs w0) (refused w0) (net w0) (S (conns w0)) (log w0)) in *.
  assert (Hb : exists wb, open_append path wa = (Ok tt, wb)
                          /\ fs wb = <[path := RegFile old]> (fs w)
                          /\ net wb = net wa /\ conns wb = conns wa).
  { unfold open_append, old. change (fs wa) with (fs w0). rewrite Hf0.
    destruct (fs w !! path) as [[d|sz]|] eqn:Hp.
    - exists wa. rewrite (insert_id _ _ _ Hp). auto.
    - now destruct (Hnodir sz).
    - assert (He : parent_error path wa = None).
      { unfold parent_error. change (fs wa) with (fs w0). rewrite Hf0.
        unfold parent_is_directory in Hparent.
        destruct (parent path) as [d|]; [|reflexivity].
        destruct Hparent as (sz & ->). reflexivity. }
      rewrite He. eexists. split; [reflexivity|]. unfold set_fs. cbn.
      change (fs wa) with (fs w0). now rewrite Hf0. }
  destruct Hb as (wb & Hob & Hfb & Hnb & Hcb).
  unfold bind at 1. rewrite Hob. unfold bind at 1.
  assert (Hc : exists wc,
             (if (offset =? 0)%Z then ret tt
              else LOG INFO "Resume: %s" [AStr (basename path)]) wb = (Ok tt, wc)
             /\ fs wc = fs wb /\ net wc = net wb /\ conns wc = conns wb).
  { destruct (offset =? 0)%Z; unfold ret, LOG; eauto. }
  destruct Hc as (wc & -> & Hfc & Hnc & Hcc).
  unfold bind at 1.
  pose proof (remote_content_length_frame self url wc) as (Hfd & _).
  pose proof (remote_content_length_eq self url wc) as Hd.
  rewrite remote_content_length_eq in Hprobe.
  rewrite Hnc, Hcc, Hnb, Hcb, Hprobe in Hd.
  destruct (_remote_content_length self url wc) as [o wd].
  cbn [fst snd] in *. subst o. exists wd. split; [reflexivity|].
  now rewrite Hfd, Hfc.
Qed.

(** X7: Take a transfer to a path at which no directory stands and whose
    directory exists, with a response of status below 300 and a body that
    arrives whole, and let the counter of bytes, which starts at the
    offset when the progress bar shows a resumed transfer and at 0
    otherwise, stay within the probed length; with the progress bar on,
    let that length be above 0, so that every value the bar is given lies
    within its range.  Then [retrieve] returns normally and has appended
    exactly the body to the local file; no other path changes. *)
Theorem retrieve_complete :
  read_fault r = None ->
  (start + str_len (body r) <= cl)%Z ->
  quiet (_options self) = true \/ (0 < cl)%Z ->
  exists w',
    retrieve self url path w = (Ok tt, w')
    /\ fs w' = <[path := RegFile (old ++ body r)]> (fs w).
Proof.
  intros Hfault Hfit _.
  destruct retrieve_reaches_loop as (wd & -> & Hfd).
  unfold reads. rewrite Hfault.
  destruct (copy_blocks_prefix path cl (blocks r) [] start wd old)
    as (w' & Hrun & Hfs & _).
  { rewrite Hfd. apply lookup_insert_eq. }
  { now rewrite blocks_concat. }
  rewrite app_nil_r in Hrun. rewrite Hrun. exists w'.
  split; [reflexivity|].
  now rewrite Hfs, Hfd, insert_insert_eq, blocks_concat.
Qed.

(** X8: Under the same conditions on the path, the response and the
    progress bar, a transfer cut by a read fault after [n] blocks that fit
    the probed length raises the fault's exception and leaves on disk the
    old data followed by those blocks. *)
Theorem retrieve_interrupted (n : nat) (e : exn) :
  read_fault r = Some (n, e) ->
  (start + str_len (String.concat "" (take n (blocks r))) <= cl)%Z ->
  quiet (_options self) = true \/ (0 < cl)%Z ->
  exists w',
    retrieve self url path w = (Raise e, w')
    /\ fs w' = <[path := RegFile (old ++ String.concat "" (take n (blocks r)))]>
                 (fs w).
Proof.
  intros Hfault Hfit _.
  destruct retrieve_reaches_loop as (wd & -> & Hfd).
  unfold reads. rewrite Hfault.
  destruct (copy_blocks_prefix path cl (take n (blocks r)) [inl e] start wd old)
    as (w' & Hrun & Hfs & _).
  { rewrite Hfd. apply lookup_insert_eq. }
  { exact Hfit. }
  rewrite Hrun. exists w'. split; [reflexivity|].
  now rewrite Hfs, Hfd, insert_insert_eq.
Qed.
End Transfer.

Lemma retrieve_complete_witness :
  exists w',
    retrieve (sample_downloader two_files sample_options) file_url_x
      "/data/x.part" resumed_world = (Ok tt, w')
    /\ fs w' !! "/data/x.part" = Some (RegFile "hello").
Proof.
  destruct (retrieve_complete (sample_downloader two_files sample_options)
              file_url_x "/data/x.part" resumed_world
              (mkWorld (fs resumed_world) ∅ (range_server "hello") 1 [])
              3 5 (mkResp 206 (Some "5") "lo" None))
    as (w' & Hrun & Hfs).
  - vm_compute. reflexivity.
  - reflexivity.
  - cbn. lia.
  - intros sz. vm_compute. discriminate.
  - vm_compute. exists 4096%Z. reflexivity.
  - vm_compute. reflexivity.
  - reflexivity.
  - vm_compute. discriminate.
  - right. lia.
  - exists w'. split; [exact Hrun|]. rewrite Hfs. apply lookup_insert_eq.
Defined.

Lemma retrieve_interrupted_witness :
  exists w',
    retrieve (sample_downloader two_files sample_options) file_url_x
      "/data/x.part" broken_world = (Raise (socket_error "timed out"), w')
    /\ fs w' !! "/data/x.part" = Some (RegFile "hel").
Proof.
  destruct (retrieve_interrupted (sample_downloader two_files sample_options)
              file_url_x "/data/x.part" broken_world
              (mkWorld (fs broken_world) ∅ broken_server 1 [])
              3 5
              (mkResp 206 (Some "5") "lo" (Some (0%nat, socket_error "timed out"))))
    with (n := 0%nat) (e := socket_error "timed out")
    as (w' & Hrun & Hfs).
  - vm_compute. reflexivity.
  - reflexivity.
  - cbn. lia.
  - intros sz. vm_compute. discriminate.
  - vm_compute. exists 4096%Z. reflexivity.
  - vm_compute. reflexivity.
  - reflexivity.
  - vm_compute. discriminate.
  - right. lia.
  - exists w'. split; [exact Hrun|]. rewrite Hfs. apply lookup_insert_eq.
Defined.

(** X9: When the server answers the transfer request with a status of 300 or
    more, [retrieve] raises [DownloadError] before the local file is
    opened: the file system is as before. *)
Theorem retrieve_http_error (self : WPDownloader) (url path : string)
  (w w0 : World) (offset : Z) (r : Response) :
  _offset self url path w = (Ok offset, w0) ->
  net w0 (conns w0) (mkReq url (Some offset)) = inr r ->
  (300 <= getcode r)%Z ->
  exists w',
    retrieve self url path w
    = (Raise (DownloadError
                ["Got HTTP response code: " ++ str_of_int (getcode r)
                 ++ " for file " ++ basename path]), w')
    /\ fs w' = fs w.
Proof.
  intros Ho Hn Hc. unfold retrieve. unfold bind at 1. rewrite Ho.
  unfold bind at 1. unfold urlopen. rewrite Hn.
  apply Z.leb_le in Hc. rewrite Hc. unfold raise. eexists.
  split; [reflexivity|]. cbn [fs].
  pose proof (offset_frame self url path w) as Hf. now rewrite Ho in Hf.
Qed.

Lemma retrieve_http_error_witness :
  exists w',
    retrieve (sample_downloader two_files sample_options) file_url_x
      "/data/x.part" missing_world
    = (Raise (DownloadError ["Got HTTP response code: 404 for file x.part"]), w')
    /\ fs w' = fs missing_world.
Proof.
  apply (retrieve_http_error (sample_downloader two_files sample_options)
           file_url_x "/data/x.part" missing_world missing_world 0
           (mkResp 404 (Some "5") "gone!" None)).
  - vm_compute. reflexivity.
  - reflexivity.
  - cbn. lia.
Defined.

(** ** What a transfer leaves alone *)

Section Respects.
Context (R : relation World) `{!PreOrder R}.

Lemma respects_ret {A} (a : A) : respects R (ret a).
Proof. intros w. reflexivity. Qed.

Lemma respects_raise {A} (e : exn) : respects R (@raise A e).
Proof. intros w. reflexivity. Qed.

Lemma respects_lift {A} (o : Outcome A) : respects R (lift o).
Proof. intros w. reflexivity. Qed.

Lemma respects_bind {A B} (m : M A) (k : A -> M B) :
  respects R m -> (forall a, respects R (k a)) -> respects R (bind m k).
Proof.
  intros Hm Hk w. unfold bind. specialize (Hm w).
  destruct (m w) as [[a|e|] w1]; cbn in *; [|exact Hm|exact Hm].
  etransitivity; [exact Hm|apply Hk].
Qed.

Lemma respects_try_except {A} (body : M A) (handler : exn -> option (M A)) :
  respects R body ->
  (forall e h, handler e = Some h -> respects R h) ->
  respects R (try_except body handler).
Proof.
  intros Hb Hh w. unfold try_except. specialize (Hb w).
  destruct (body w) as [[a|e|] w1]; cbn in *; [exact Hb| |exact Hb].
  destruct (handler e) as [h|] eqn:He; [|exact Hb].
  etransitivity; [exact Hb|apply (Hh e h He)].
Qed.

Lemma respects_if {A} (b : World -> bool) (m1 m2 : M A) :
  respects R m1 -> respects R m2 ->
  respects R (fun w => if b w then m1 w else m2 w).
Proof. intros H1 H2 w. destruct (b w); [apply H1|apply H2]. Qed.

(** [R] does not look at the connection counter or at the log, and the
    two operations on the file at [path] respect it. *)
Hypothesis R_counters : forall w n l,
  R w (mkWorld (fs w) (refused w) (net w) n l).
Variable path : string.
Hypothesis R_open : respects R (open_append path).
Hypothesis R_write : forall block, respects R (file_write path block).

Lemma respects_LOG (lvl : Level) (msg : string) (args : list LogArg) :
  respects R (LOG lvl msg args).
Proof. intros w. apply R_counters. Qed.

Lemma respects_urlopen (rq : Request) : respects R (urlopen rq).
Proof.
  intros w. unfold urlopen.
  destruct (net w (conns w) rq); apply R_counters.
Qed.

Lemma respects_getsize (p : string) : respects R (os_path_getsize p).
Proof.
  intros w. unfold os_path_getsize.
  destruct (fs w !! p) as [[d|sz]|]; reflexivity.
Qed.

Lemma respects_remote_content_length (self : WPDownloader) (url : string) :
  respects R (_remote_content_length self url).
Proof.
  unfold _remote_content_length. apply respects_bind; [apply respects_urlopen|].
  intros r. destruct (300 <=? getcode r)%Z; [apply respects_ret|].
  destruct (content_length_header r); [apply respects_lift|apply respects_raise].
Qed.

Lemma respects_should_skip_url (self : WPDownloader) (url p : string) :
  respects R (_should_skip_url self url p).
Proof.
  unfold _should_skip_url.
  apply (respects_if (os_path_exists p)); [|apply respects_ret].
  apply respects_bind; [apply respects_remote_content_length|]. intros remote.
  apply respects_bind; [apply respects_getsize|]. intros local.
  destruct ((remote =? local)%Z && negb (force (_options self)));
    apply respects_ret.
Qed.

Lemma respects_offset (self : WPDownloader) (url p : string) :
  respects R (_offset self url p).
Proof.
  unfold _offset.
  apply (respects_if (fun w => resume (_options self) && os_path_exists p w));
    [|apply respects_ret].
  apply respects_bind; [apply respects_getsize|]. intros size.
  apply respects_bind; [apply respects_remote_content_length|]. intros remote.
  destruct (size <=? remote)%Z; apply respects_ret.
Qed.

Lemma respects_copy_blocks (cl read : Z) (rs : list (exn + string)) :
  respects R (copy_blocks path cl read rs).
Proof.
  revert read. induction rs as [|[e|b] rs IH]; intros read; cbn [copy_blocks].
  - apply respects_ret.
  - apply respects_raise.
  - apply respects_bind; [apply R_write|]. intros _.
    destruct (cl <? read + str_len b)%Z; [apply respects_raise|apply IH].
Qed.

Lemma respects_retrieve (self : WPDownloader) (url : string) :
  respects R (retrieve self url path).
Proof.
  unfold retrieve. apply respects_bind; [apply respects_offset|]. intros offset.
  apply respects_bind; [apply respects_urlopen|]. intros r.
  destruct (300 <=? getcode r)%Z; [apply respects_raise|].
  apply respects_bind; [apply R_open|]. intros _.
  apply respects_bind.
  { destruct (offset =? 0)%Z; [apply respects_ret|apply respects_LOG]. }
  intros _.
  apply respects_bind; [apply respects_remote_content_length|]. intros cl.
  apply respects_copy_blocks.
Qed.
End Respects.

#[local] Instance same_net_preorder : PreOrder same_net.
Proof.
  split; [intros w; reflexivity|].
  intros a b c Hab Hbc. unfold same_net in *. congruence.
Qed.

Lemma grows_refl (path : string) (m : gmap string node) : grows path m m.
Proof.
  split; [reflexivity|].
  destruct (m !! path) as [[d|sz]|]; [|reflexivity|now left].
  exists "". now rewrite append_empty_r.
Qed.

Lemma grows_trans (path : string) (m1 m2 m3 : gmap string node) :
  grows path m1 m2 -> grows path m2 m3 -> grows path m1 m3.
Proof.
  intros [Hf1 Hp1] [Hf2 Hp2]. split.
  - intros p Hp. now rewrite (Hf2 p Hp), (Hf1 p Hp).
  - destruct (m1 !! path) as [[d|sz]|].
    + destruct Hp1 as (d1 & E1). rewrite E1 in Hp2.
      destruct Hp2 as (d2 & E2). exists (d1 ++ d2).
      now rewrite E2, append_assoc.
    + now rewrite Hp1 in Hp2.
    + destruct Hp1 as [E1|(d1 & E1)]; rewrite E1 in Hp2.
      * exact Hp2.
      * destruct Hp2 as (d2 & E2). right. eauto.
Qed.

#[local] Instance grows_at_preorder (path : string) : PreOrder (grows_at path).
Proof.
  split; [intros w; apply grows_refl|].
  intros a b c. apply grows_trans.
Qed.

Lemma grows_insert (path : string) (m : gmap string node) (d d' : string) :
  m !! path = Some (RegFile d) ->
  grows path m (<[path := RegFile (d ++ d')]> m).
Proof.
  intros Hp. split.
  - intros p Hne. now apply lookup_insert_ne.
  - rewrite Hp. exists d'. apply lookup_insert_eq.
Qed.

Lemma grows_open_append (path : string) : respects (grows_at path) (open_append path).
Proof.
  intros w. unfold open_append, grows_at.
  destruct (fs w !! path) as [[d|sz]|] eqn:Hp; cbn; try apply grows_refl.
  destruct (parent_error path w); cbn; [apply grows_refl|].
  split.
  - intros p Hne. now apply lookup_insert_ne.
  - rewrite Hp. right. exists "". apply lookup_insert_eq.
Qed.

Lemma grows_file_write (path block : string) :
  respects (grows_at path) (file_write path block).
Proof.
  intros w. unfold file_write, grows_at.
  destruct (fs w !! path) as [[d|sz]|] eqn:Hp; cbn; try apply grows_refl.
  now apply grows_insert.
Qed.

(** X10: Whatever its outcome, [retrieve] changes the file system at most at
    the path it writes: a file there is only appended to (its old content
    stays a prefix), one may be created, and no other path is touched. *)
Theorem retrieve_append_only (self : WPDownloader) (url path : string)
  (w : World) :
  grows path (fs w) (fs (snd (retrieve self url path w))).
Proof.
  apply (respects_retrieve (grows_at path)).
  - intros w' n l. apply grows_refl.
  - apply grows_open_append.
  - intros block. apply grows_file_write.
Qed.

(** No step of a transfer changes the remote side. *)
Lemma retrieve_same_net (self : WPDownloader) (url path : string) :
  respects same_net (retrieve self url path).
Proof.
  apply (respects_retrieve same_net).
  - reflexivity.
  - intros w. unfold open_append.
    destruct (fs w !! path) as [[d|sz]|]; try reflexivity.
    destruct (parent_error path w); reflexivity.
  - intros block w. unfold file_write.
    destruct (fs w !! path) as [[d|sz]|]; reflexivity.
Qed.

(** ** The retry loop and the loop over the files *)

Lemma attempt_raises (self : WPDownloader) (url path : string)
  (w w' : World) (e : exn) :
  attempt self url path w = (Raise e, w') -> retrieve_file_except e = None.
Proof.
  unfold attempt, try_except.
  destruct ((retrieve self url path;;
             os_rename path (fst (splitext path));; ret true) w)
    as [[b|e0|] w1]; try discriminate.
  destruct (retrieve_file_except e0) as [h|] eqn:He.
  - unfold retrieve_file_except in He.
    destruct (is_socket_error e0);
      [|destruct (is_IOError e0); [|destruct (is_DownloadError e0)]];
      try discriminate; injection He as <-; discriminate.
  - intros [= <- _]. exact He.
Qed.

Lemma retrieve_file_except_none (e : exn) :
  retrieve_file_except e = None ->
  is_IOError e = false /\ is_DownloadError e = false.
Proof.
  unfold retrieve_file_except.
  destruct (is_socket_error e); [discriminate|].
  destruct (is_IOError e); [discriminate|].
  destruct (is_DownloadError e); [discriminate|auto].
Qed.

Lemma retrieve_file_loop_raises (self : WPDownloader) (url path : string)
  (fuel : nat) (tries : Z) (w w' : World) (e : exn) :
  retrieve_file_loop fuel self url path tries w = (Raise e, w') ->
  (e = retry_limit_exceeded url /\ exists n, retries (_options self) = (tries + Z.of_nat n)%Z)
  \/ retrieve_file_except e = None.
Proof.
  revert tries w. induction fuel as [|fuel IH]; intros tries w; [discriminate|].
  cbn [retrieve_file_loop].
  destruct (tries =? retries (_options self))%Z eqn:E.
  - intros [= <- _]. left. split; [reflexivity|]. exists 0%nat.
    apply Z.eqb_eq in E. lia.
  - unfold bind.
    destruct (attempt self url path w) as [[[]|e0|] w1] eqn:Ha; try discriminate.
    + intros Hl. destruct (IH _ _ Hl) as [[-> (n & Hn)]|Hn]; [left|now right].
      split; [reflexivity|]. exists (S n). lia.
    + intros [= <- _]. right. exact (attempt_raises _ _ _ _ _ _ Ha).
Qed.

(** X11: Of the errors of a transfer none leaves [retrieve_file]: no [IOError]
    or socket error ever does, and the only [DownloadError] is the one of
    the retry limit, which needs a limit of 0 or more; with a negative
    limit [retrieve_file] never gives up. *)
Theorem retrieve_file_raises (self : WPDownloader) (url path : string)
  (fuel : nat) (w w' : World) (e : exn) :
  retrieve_file fuel self url path w = (Raise e, w') ->
  is_IOError e = false
  /\ (is_DownloadError e = true ->
      e = retry_limit_exceeded url /\ (0 <= retries (_options self))%Z).
Proof.
  intros Hr. apply retrieve_file_loop_raises in Hr as [[-> (n & Hn)]|Hn].
  - split; [reflexivity|]. intros _. split; [reflexivity|lia].
  - apply retrieve_file_except_none in Hn as [Hio Hd]. split; [exact Hio|].
    rewrite Hd. discriminate.
Qed.

Lemma retrieve_file_raises_witness :
  is_IOError (retry_limit_exceeded file_url_x) = false
  /\ (is_DownloadError (retry_limit_exceeded file_url_x) = true ->
      retry_limit_exceeded file_url_x = retry_limit_exceeded file_url_x
      /\ (0 <= 1)%Z).
Proof.
  apply (retrieve_file_raises (sample_downloader two_files one_retry_options)
           file_url_x "/data/x" 5 (late_world) after_failure).
  vm_compute. reflexivity.
Defined.

Lemma same_net_counters (w : World) (n : nat) (l : list LogRecord) :
  same_net w (mkWorld (fs w) (refused w) (net w) n l).
Proof. reflexivity. Qed.

Lemma same_net_rename (src dst : string) : respects same_net (os_rename src dst).
Proof.
  intros w. unfold os_rename. destruct (fs w !! src); [|reflexivity].
  destruct (String.eqb src dst); [reflexivity|].
  destruct (fs w !! dst) as [[d|sz]|]; reflexivity.
Qed.

Lemma same_net_attempt (self : WPDownloader) (url path : string) :
  respects same_net (attempt self url path).
Proof.
  unfold attempt. apply respects_try_except; [apply _| |].
  - apply respects_bind; [apply _|apply retrieve_same_net|]. intros _.
    apply respects_bind; [apply _|apply same_net_rename|]. intros _.
    apply respects_ret. apply _.
  - intros e h. unfold retrieve_file_except.
    destruct (is_socket_error e);
      [|destruct (is_IOError e); [|destruct (is_DownloadError e)]];
      try discriminate; intros [= <-];
      (apply respects_bind; [apply _|intros w; reflexivity|]);
      intros _; apply respects_ret; apply _.
Qed.

Lemma same_net_retrieve_file (fuel : nat) (self : WPDownloader)
  (url path : string) :
  respects same_net (retrieve_file fuel self url path).
Proof.
  unfold retrieve_file. generalize 0%Z as tries. generalize (path ++ ".part") as p.
  induction fuel as [|fuel IH]; intros p tries; cbn [retrieve_file_loop].
  - apply respects_lift. apply _.
  - destruct (tries =? retries (_options self))%Z; [apply respects_raise; apply _|].
    apply respects_bind; [apply _|apply same_net_attempt|].
    intros [|]; [apply respects_ret; apply _|apply IH].
Qed.

(** What [retrieve_each] does with one URL, whatever comes of it, leaves
    the remote side as it was. *)
Lemma same_net_retrieve_each (fuel : nat) (self : WPDownloader)
  (urls : list (option string)) (ending : Outcome unit) (path : string) :
  respects same_net (retrieve_each fuel self urls ending path).
Proof.
  induction urls as [|[url|] urls IH]; cbn [retrieve_each].
  - apply respects_lift. apply _.
  - apply respects_bind; [apply _| |].
    + apply respects_should_skip_url; [apply _|apply same_net_counters].
    + intros skip. apply respects_bind; [apply _| |intros _; apply IH].
      destruct skip; [intros w; reflexivity|].
      apply respects_try_except; [apply _|apply same_net_retrieve_file|].
      intros e h. destruct (is_DownloadError e); [|discriminate].
      intros [= <-] w. reflexivity.
  - apply respects_raise. apply _.
Qed.

Lemma should_skip_url_raises (self : WPDownloader) (url path : string)
  (w : World) (e : exn) :
  (forall n rq e', net w n rq = inl e' -> is_DownloadError e' = false) ->
  fst (_should_skip_url self url path w) = Raise e ->
  is_DownloadError e = false.
Proof.
  intros Hnet. rewrite should_skip_url_eq.
  destruct (fs w !! path); [|discriminate].
  rewrite remote_content_length_eq.
  destruct (net w (conns w) (mkReq url None)) as [e'|r] eqn:Hn.
  - intros [= <-]. exact (Hnet _ _ _ Hn).
  - destruct (300 <=? getcode r)%Z; [discriminate|].
    destruct (content_length_header r) as [v|]; [|now intros [= <-]].
    unfold py_int.
    destruct (rstrip (lstrip v)) as [|c t]; [now intros [= <-]|].
    match goal with
    | |- context [let '(_, _) := ?p in _] => destruct p as [sg [|c' t']]
    end; [now intros [= <-]|].
    destruct (digits_value 0 (String c' t')); [discriminate|now intros [= <-]].
Qed.

(** X12: As long as the remote side itself does not fail with a
    [DownloadError], none leaves the loop over the files: the failure of
    one file (HTTP status, overrun, retry limit) never ends the loop. *)
Theorem retrieve_each_no_DownloadError (fuel : nat) (self : WPDownloader)
  (urls : list (option string)) (ending : Outcome unit) (path : string)
  (w : World) (e : exn) :
  (forall n rq e', net w n rq = inl e' -> is_DownloadError e' = false) ->
  (forall e', ending = Raise e' -> is_DownloadError e' = false) ->
  fst (retrieve_each fuel self urls ending path w) = Raise e ->
  is_DownloadError e = false.
Proof.
  intros Hnet Hend. revert w Hnet.
  induction urls as [|[url|] urls IH]; intros w Hnet; cbn [retrieve_each].
  - unfold lift. cbn. intros ->. now apply Hend.
  - unfold bind at 1.
    pose proof (respects_should_skip_url same_net same_net_counters self url
                  (os_path_join path [basename url]) w) as Hn1.
    pose proof (should_skip_url_raises self url
                  (os_path_join path [basename url]) w) as Hs.
    destruct (_should_skip_url self url (os_path_join path [basename url]) w)
      as [[skip|e1|] w1]; cbn [fst snd] in *; [| |discriminate].
    + unfold bind at 1.
      set (step := if skip then _ else _).
      assert (Hstep : same_net w1 (snd (step w1))
                      /\ forall e', fst (step w1) = Raise e' ->
                                    is_DownloadError e' = false).
      { unfold step. destruct skip; [split; [reflexivity|discriminate]|]. split.
        - apply respects_try_except; [apply _|apply same_net_retrieve_file|].
          intros e' h. destruct (is_DownloadError e'); [|discriminate].
          intros [= <-] w'. reflexivity.
        - unfold try_except.
          destruct (retrieve_file fuel self url _ w1) as [[[]|e2|] w2];
            try discriminate.
          destruct (is_DownloadError e2) eqn:E2; [discriminate|].
          now intros e' [= <-]. }
      destruct Hstep as [Hn2 Hraise].
      destruct (step w1) as [[[]|e2|] w2]; cbn [fst snd] in *.
      * apply IH. intros n rq e' He'. apply (Hnet n rq).
        unfold same_net in *. now rewrite <- Hn1, <- Hn2.
      * intros [= <-]. now apply Hraise.
      * discriminate.
    + intros [= <-]. now apply Hs.
  - unfold raise. cbn. now intros [= <-].
Qed.

Lemma retrieve_each_no_DownloadError_witness :
  is_DownloadError (AttributeError "'NoneType' object has no attribute 'rfind'")
  = false.
Proof.
  apply (retrieve_each_no_DownloadError 5
           (sample_downloader two_files sample_options)
           [Some file_url_x; None] (Ok tt) "/data" missing_world).
  - intros n rq e'. discriminate.
  - discriminate.
  - vm_compute. reflexivity.
Defined.

(** X13: A file of which a complete copy is on disk (same size as the probed
    length, no [force]) is skipped: the loop goes on to the next URL after
    one connection, the probe, and one log record; nothing is
    transferred and the file system is not touched. *)
Theorem retrieve_each_skips (fuel : nat) (self : WPDownloader) (url : string)
  (rest : list (option string)) (ending : Outcome unit) (path data : string)
  (w : World) :
  fs w !! os_path_join path [basename url] = Some (RegFile data) ->
  fst (_remote_content_length self url w) = Ok (str_len data) ->
  force (_options self) = false ->
  retrieve_each fuel self (Some url :: rest) ending path w
  = retrieve_each fuel self rest ending path
      (mkWorld (fs w) (refused w) (net w) (S (conns w))
         (log w ++ [mkLog INFO "Skipped: %s" [AStr (basename url)]])).
Proof.
  intros Hp Hr Hf. cbn [retrieve_each]. unfold bind at 1.
  unfold _should_skip_url, os_path_exists.
  rewrite bool_decide_eq_true_2 by eauto. unfold bind at 1.
  pose proof (remote_content_length_frame self url w)
    as (Hfs & Href & Hnet & Hc & Hl).
  destruct (_remote_content_length self url w) as [o [f rf nt c l]].
  cbn in *. subst. unfold bind at 1. unfold os_path_getsize. cbn [fs].
  rewrite Hp, Z.eqb_refl, Hf. cbn [andb negb]. unfold ret.
  unfold bind at 1. unfold LOG. reflexivity.
Qed.

Lemma retrieve_each_skips_witness :
  retrieve_each 5 (sample_downloader two_files sample_options)
    [Some file_url_x] (Ok tt) "/data" complete_world
  = (Ok tt,
     mkWorld (fs complete_world) ∅ (sample_server "" "5" "hello") 1
       [mkLog INFO "Skipped: %s" [AStr "x"]]).
Proof.
  rewrite (retrieve_each_skips 5 (sample_downloader two_files sample_options)
             file_url_x [] (Ok tt) "/data" "hello" complete_world);
    reflexivity.
Defined.

(** ** The batch against an unreachable server *)

Lemma download_language_fails `{UrlLib} (fuel : nat) (d : WPDownloader)
  (lang url path : string) (e : exn) (w : World) :
  _custom_dump (_urlhandler d) = [] ->
  language_url (_urlhandler d) lang = Ok url ->
  net w (conns w) (mkReq url None) = inl e ->
  is_IOError e = true ->
  download_language fuel d lang path w
  = (Raise e,
     mkWorld (fs w) (refused w) (net w) (S (conns w))
       (log w ++ [mkLog ERROR "%s" [AExn e];
                  mkLog ERROR "Could not retrieve: %s" [AStr url]])).
Proof.
  intros Hc Hu Hn He.
  unfold download_language, _create_download_dirs, _download_directory.
  unfold bind.
  rewrite (latest_dump_date_fetch_fails (_urlhandler d) lang url ∅ e w);
    auto.
  now rewrite Hc.
Qed.

Lemma download_each_unreachable `{UrlLib} (fuel : nat) (d : WPDownloader)
  (path : string) (langs : list string) :
  _custom_dump (_urlhandler d) = [] ->
  (forall lang, In lang langs ->
     exists url, language_url (_urlhandler d) lang = Ok url) ->
  forall w, unreachable w ->
  exists w',
    download_each fuel d langs path w = (Ok tt, w')
    /\ fs w' = fs w /\ net w' = net w
    /\ conns w' = (conns w + length langs)%nat.
Proof.
  intros Hc. induction langs as [|lang langs IH]; intros Hurl w Hw.
  - exists w. cbn. repeat split. lia.
  - destruct (Hurl lang (or_introl eq_refl)) as (url & Hu).
    set (wa := snd (LOG INFO "Processing language: %s" [AStr lang] w)).
    destruct (Hw (conns wa) (mkReq url None)) as (e & Hn & He).
    rewrite (download_each_skips_on_IOError fuel d lang langs path w _ e
               (download_language_fails fuel d lang url path e wa Hc Hu Hn He) He).
    match goal with |- context [download_each _ _ _ _ ?w1] => set (wb := w1) end.
    destruct (IH (fun l Hl => Hurl l (or_intror Hl)) wb) as (w' & Hrun & Hfs & Hnet & Hcn).
    { intros n rq. apply (Hw n rq). }
    exists w'. split; [exact Hrun|]. rewrite Hfs, Hnet, Hcn.
    cbn. repeat split. lia.
Qed.

(** X14: With no custom dates and a server that cannot be reached, the batch
    over all enabled languages returns normally: every language is tried
    with one connection and skipped, and the file system is not touched. *)
Theorem download_all_languages_unreachable `{UrlLib} (fuel : nat)
  (d : WPDownloader) (path : string) (langs : list string) (w : World) :
  _custom_dump (_urlhandler d) = [] ->
  enabled_languages (_config d) = Ok langs ->
  (forall lang, In lang langs ->
     exists url, language_url (_urlhandler d) lang = Ok url) ->
  unreachable w ->
  exists w',
    download_all_languages fuel d path w = (Ok tt, w')
    /\ fs w' = fs w
    /\ conns w' = (conns w + length langs)%nat.
Proof.
  intros Hc Hl Hurl Hw. unfold download_all_languages, bind, lift. rewrite Hl.
  destruct (download_each_unreachable fuel d path langs Hc Hurl w Hw)
    as (w' & Hrun & Hfs & _ & Hcn).
  exists w'. auto.
Qed.

Lemma download_all_languages_unreachable_witness :
  exists w',
    download_all_languages 5 (sample_downloader two_languages sample_options)
      "/data" (world_of ∅ server_down) = (Ok tt, w')
    /\ fs w' = ∅
    /\ conns w' = 2%nat.
Proof.
  apply (download_all_languages_unreachable 5
           (sample_downloader two_languages sample_options) "/data"
           ["en"; "entities"] (world_of ∅ server_down)).
  - reflexivity.
  - reflexivity.
  - intros lang [<-|[<-|[]]]; eexists; reflexivity.
  - intros n rq. exists (IOError "socket error"). split; reflexivity.
Defined.

(** ** Tokens that are no dates *)

Lemma strptime_raises (s : string) :
  (exists d, strptime s = Ok d) \/ (exists msg, strptime s = Raise (ValueError msg)).
Proof.
  unfold strptime.
  destruct (flat_map _ (match_Y s)) as [|[dt rest] l]; [right; eauto|].
  destruct (negb (String.eqb rest "")); [right; eauto|].
  destruct (year dt <? 1)%Z; [right; eauto|].
  destruct (days_in_month (year dt) (month dt) <? day dt)%Z; [right|left]; eauto.
Qed.

Lemma parse_dates_invalid (tokens : list string) (t : string) :
  In t tokens ->
  (forall d, strptime t <> Ok d) ->
  exists msg, parse_dates tokens = Raise (ValueError msg).
Proof.
  intros Hin Hbad. induction tokens as [|t' tokens IH]; [destruct Hin|].
  cbn. destruct (strptime_raises t') as [(d & Hd)|(msg & Hd)]; rewrite Hd; cbn.
  - destruct Hin as [->|Hin]; [now destruct (Hbad d)|].
    destruct (IH Hin) as (msg & ->). cbn. eauto.
  - eauto.
Qed.

(** X15: A token on the page that is no calendar date is not passed over: date
    resolution raises [ValueError], with the file system untouched. *)
Theorem latest_dump_date_invalid_token `{UrlLib} (self : URLHandler)
  (language url t : string) (m : gmap string string) (r : Response) (w : World) :
  custom_dates ∅ (_custom_dump self) = Ok m ->
  m !! language = None ->
  language_url self language = Ok url ->
  net w (conns w) (mkReq url None) = inr r ->
  read_fault r = None ->
  In t (date_matcher_findall (body r)) ->
  (forall d, strptime t <> Ok d) ->
  exists msg w',
    latest_dump_date self language w = (Raise (ValueError msg), w')
    /\ fs w' = fs w.
Proof.
  intros Hm Hl Hu Hn Hf Hin Hbad.
  destruct (parse_dates_invalid _ t Hin Hbad) as (msg & Hp).
  unfold latest_dump_date, dump_dates. unfold_monad.
  rewrite Hm, Hl, Hu, Hn. unfold read_all. rewrite Hf, Hp.
  cbn. eauto.
Qed.

Lemma latest_dump_date_invalid_token_witness :
  exists msg w',
    latest_dump_date (sample_handler two_files sample_options) "en"
      month13_world = (Raise (ValueError msg), w')
    /\ fs w' = ∅.
Proof.
  apply (latest_dump_date_invalid_token
           (sample_handler two_files sample_options) "en"
           "http://dumps.wikimedia.org/enwiki" "20231301" ∅
           (mkResp 200 None (listing ["20230101"; "20231301"]) None)
           month13_world); try reflexivity.
  - vm_compute. auto.
  - intros d. vm_compute. discriminate.
Defined.

(** ** The download directory *)

#[local] Instance same_disk_preorder : PreOrder same_disk.
Proof.
  split; [intros w; split; reflexivity|].
  intros a b c [H1 H2] [H3 H4]. split; congruence.
Qed.

Lemma same_disk_counters (w : World) (n : nat) (l : list LogRecord) :
  same_disk w (mkWorld (fs w) (refused w) (net w) n l).
Proof. split; reflexivity. Qed.

Lemma same_disk_latest_dump_date `{UrlLib} (self : URLHandler) (language : string) :
  respects same_disk (latest_dump_date self language).
Proof.
  unfold latest_dump_date.
  apply respects_bind; [apply _|apply respects_lift; apply _|]. intros dates.
  destruct (dates !! language); [apply respects_lift; apply _|].
  apply respects_bind; [apply _|apply respects_lift; apply _|]. intros url.
  apply respects_bind; [apply _| |].
  - unfold dump_dates. apply respects_try_except; [apply _| |].
    + apply respects_bind; [apply _| |].
      * apply respects_urlopen. apply same_disk_counters.
      * intros r. apply respects_bind; [apply _|apply respects_lift; apply _|].
        intros page. apply respects_ret. apply _.
    + intros e h. destruct (is_IOError e); [|discriminate]. intros [= <-].
      apply respects_bind; [apply _| |].
      * apply respects_LOG. apply same_disk_counters.
      * intros _. apply respects_bind; [apply _| |].
        -- apply respects_LOG. apply same_disk_counters.
        -- intros _. apply respects_raise. apply _.
  - intros tokens.
    apply respects_bind; [apply _|apply respects_lift; apply _|]. intros ds.
    apply respects_lift. apply _.
Qed.

Lemma same_disk_download_directory `{UrlLib} (self : WPDownloader)
  (language path : string) :
  respects same_disk (_download_directory self language path).
Proof.
  unfold _download_directory.
  apply respects_bind; [apply _|apply same_disk_latest_dump_date|]. intros latest.
  apply respects_bind; [apply _|apply respects_lift; apply _|]. intros date.
  apply respects_ret. apply _.
Qed.

#[local] Instance adds_dirs_preorder (places : list string) :
  PreOrder (adds_dirs places).
Proof.
  split.
  - intros w p. now left.
  - intros a b c Hab Hbc p.
    destruct (Hbc p) as [E|(Hn & Hin & sz & Hd)].
    + rewrite E. apply Hab.
    + right. destruct (Hab p) as [E|(_ & _ & sz' & Hd')]; [|congruence].
      rewrite <- E. eauto.
Qed.

Lemma adds_dirs_mono (places places' : list string) (w w' : World) :
  (forall p, In p places -> In p places') ->
  adds_dirs places w w' -> adds_dirs places' w w'.
Proof.
  intros Hsub Hadd p. destruct (Hadd p) as [E|(Hn & Hin & Hd)]; [now left|].
  right. auto.
Qed.

Lemma adds_dirs_mkdir (name : string) : respects (adds_dirs [name]) (os_mkdir name).
Proof.
  intros w. unfold os_mkdir.
  destruct (bool_decide (name ∈ refused w)); [reflexivity|].
  unfold os_path_exists.
  destruct (decide (is_Some (fs w !! name))) as [Hex|Hex].
  - rewrite bool_decide_eq_true_2 by exact Hex. reflexivity.
  - rewrite bool_decide_eq_false_2 by exact Hex.
    destruct (parent_error name w); [reflexivity|].
    intros p. unfold set_fs. cbn [snd fs].
    destruct (decide (p = name)) as [->|Hne].
    + right. rewrite lookup_insert_eq. repeat split.
      * destruct (fs w !! name) eqn:E; [|reflexivity].
        destruct Hex. eauto.
      * now left.
      * eauto.
    + left. now apply lookup_insert_ne.
Qed.

(** [os.makedirs] creates directories only, at the path and at the
    directories above it, and only where nothing was. *)
Lemma adds_dirs_makedirs_from (above : list string) (name : string) :
  respects (adds_dirs (name :: above)) (makedirs_from above name).
Proof.
  revert name. induction above as [|head more IH]; intros name;
    cbn [makedirs_from].
  - apply adds_dirs_mkdir.
  - apply respects_bind; [apply _| |].
    + assert (Hh : forall e h, makedirs_except e = Some h ->
                               respects (adds_dirs (head :: more)) h).
      { intros e h He.
        assert (E : h = ret tt); [|subst h; apply respects_ret; apply _].
        unfold makedirs_except in He. destruct e; try discriminate.
        destruct (String.eqb msg "File exists"); [|discriminate].
        now injection He as <-. }
      intros w. destruct (negb (os_path_exists head w)); [|reflexivity].
      apply (adds_dirs_mono (head :: more)); [intros p Hp; now right|].
      exact (respects_try_except (adds_dirs (head :: more))
               (makedirs_from more head) makedirs_except (IH head) Hh w).
    + intros _ w. apply (adds_dirs_mono [name]); [intros p [->|[]]; now left|].
      apply adds_dirs_mkdir.
Qed.

(** When [os.mkdir] returns, the directory is there, under a directory. *)
Lemma os_mkdir_ok (name : string) (w w' : World) :
  os_mkdir name w = (Ok tt, w') ->
  fs w' !! name = Some (Directory 4096)
  /\ forall d, parent name = Some d -> exists sz, fs w' !! d = Some (Directory sz).
Proof.
  unfold os_mkdir.
  destruct (bool_decide (name ∈ refused w)); [discriminate|].
  destruct (os_path_exists name w); [discriminate|].
  unfold parent_error.
  destruct (parent name) as [d|] eqn:Hd.
  - destruct (fs w !! d) as [[data|sz]|] eqn:E; try discriminate.
    intros [= <-]. unfold set_fs. cbn [fs]. split; [apply lookup_insert_eq|].
    intros d' [= <-]. destruct (decide (d = name)) as [->|Hne].
    + rewrite lookup_insert_eq. eauto.
    + rewrite lookup_insert_ne by congruence. eauto.
  - intros [= <-]. unfold set_fs. cbn [fs]. split; [apply lookup_insert_eq|].
    discriminate.
Qed.

Lemma makedirs_from_ok (above : list string) (name : string) (w w' : World) :
  makedirs_from above name w = (Ok tt, w') ->
  fs w' !! name = Some (Directory 4096)
  /\ forall d, parent name = Some d -> exists sz, fs w' !! d = Some (Directory sz).
Proof.
  destruct above as [|head more]; cbn [makedirs_from]; [apply os_mkdir_ok|].
  unfold bind at 1.
  destruct (if negb (os_path_exists head w)
            then try_except (makedirs_from more head) makedirs_except w
            else (Ok tt, w)) as [[[]|e|] w1]; try discriminate.
  apply os_mkdir_ok.
Qed.

(** X16: When [_create_download_dirs] returns, the download directory
    exists.  Whatever was on disk is still there, unchanged; what is new
    is a directory, at the download directory or at one of the directories
    above it, and the directory just above the download directory is among
    those that exist.  When the download directory was there before, the
    file system is exactly as it was. *)
Theorem create_download_dirs_ensures `{UrlLib} (self : WPDownloader)
  (language path : string) (w w' : World) :
  _create_download_dirs self language path w = (Ok tt, w') ->
  exists dir w1,
    _download_directory self language path w = (Ok dir, w1)
    /\ is_Some (fs w' !! dir)
    /\ (forall p n, fs w !! p = Some n -> fs w' !! p = Some n)
    /\ (forall p, fs w !! p = None -> is_Some (fs w' !! p) ->
                  (p = dir \/ In p (ancestors dir))
                  /\ exists sz, fs w' !! p = Some (Directory sz))
    /\ (fs w !! dir = None ->
        forall d, parent dir = Some d ->
                  exists sz, fs w' !! d = Some (Directory sz))
    /\ (is_Some (fs w !! dir) -> fs w' = fs w).
Proof.
  unfold _create_download_dirs. unfold bind at 1.
  pose proof (same_disk_download_directory self language path w) as [Hfs Hrf].
  destruct (_download_directory self language path w) as [[dir|e|] w1];
    try discriminate.
  cbn [snd] in Hfs, Hrf. unfold os_path_exists.
  destruct (decide (is_Some (fs w1 !! dir))) as [Hex|Hex].
  - rewrite bool_decide_eq_true_2 by exact Hex. cbn [negb].
    intros [= <-]. exists dir, w1. rewrite Hfs in *.
    split; [reflexivity|]. split; [exact Hex|]. split; [auto|].
    split; [|split; [|reflexivity]].
    + intros p Hn [n Hp]. congruence.
    + intros Hn. rewrite Hn in Hex. now destruct Hex.
  - rewrite bool_decide_eq_false_2 by exact Hex. cbn [negb].
    unfold bind at 1. unfold LOG at 1. cbv beta iota.
    set (wl := mkWorld (fs w1) (refused w1) (net w1) (conns w1) _).
    intros Hmk. exists dir, w1. split; [reflexivity|].
    unfold os_makedirs in Hmk.
    pose proof (adds_dirs_makedirs_from (rev (ancestors dir)) dir wl) as Hadd.
    rewrite Hmk in Hadd. cbn [snd] in Hadd.
    destruct (makedirs_from_ok _ _ _ _ Hmk) as [Hdir Hpar].
    assert (Hadd' : forall p, fs w' !! p = fs w !! p
                      \/ (fs w !! p = None /\ In p (dir :: rev (ancestors dir))
                          /\ exists sz, fs w' !! p = Some (Directory sz))).
    { intros p. rewrite <- Hfs. exact (Hadd p). }
    clear Hadd. rename Hadd' into Hadd. clearbody wl. rewrite Hfs in Hex.
    split; [rewrite Hdir; eauto|]. split; [|split; [|split]].
    + intros p n Hp. destruct (Hadd p) as [E|(Hn & _)]; congruence.
    + intros p Hn [n Hp]. destruct (Hadd p) as [E|(_ & Hin & Hd)]; [congruence|].
      split; [|exact Hd]. destruct Hin as [->|Hin]; [now left|].
      right. now apply in_rev.
    + intros _. exact Hpar.
    + intros Hsome. now destruct Hex.
Qed.

Lemma create_download_dirs_ensures_witness :
  exists dir w1,
    _download_directory (sample_downloader two_files sample_options)
      "en" "/data" sample_world = (Ok dir, w1)
    /\ dir = "/data/en/20230201"
    /\ is_Some (fs created_world !! dir)
    /\ exists sz, fs created_world !! "/data/en" = Some (Directory sz).
Proof.
  destruct (create_download_dirs_ensures
              (sample_downloader two_files sample_options) "en" "/data"
              sample_world created_world)
    as (dir & w1 & Hd & Hex & _ & _ & Hpar & _).
  - vm_compute. reflexivity.
  - assert (E : dir = "/data/en/20230201").
    { vm_compute in Hd. now injection Hd as <- _. }
    exists dir, w1. repeat split; auto. subst dir.
    apply Hpar; reflexivity.
Defined.

(** ** Where the files of a language go *)

Lemma string_of_uint_digits (u : Decimal.uint) :
  str_all is_digit (NilEmpty.string_of_uint u) = true.
Proof. induction u; cbn; auto. Qed.

Lemma str_of_Z_digits (z : Z) : str_all is_digit (str_of_Z z) = true.
Proof. apply string_of_uint_digits. Qed.

Lemma str_of_Z_nonempty (z : Z) : str_of_Z z <> "".
Proof.
  unfold str_of_Z. destruct (Z.to_N z) as [|p]; [discriminate|].
  cbn [N.to_uint]. pose proof (DecimalPos.Unsigned.to_uint_nonnil p) as Hp.
  destruct (Pos.to_uint p); [contradiction|discriminate..].
Qed.

Lemma str_all_app (f : ascii -> bool) (a b : string) :
  str_all f (a ++ b) = str_all f a && str_all f b.
Proof. induction a as [|c a IH]; cbn; [reflexivity|]. now rewrite IH, andb_assoc. Qed.

Lemma pad2_digits (z : Z) : str_all is_digit (pad2 z) = true.
Proof.
  unfold pad2. destruct (z <? 10)%Z; [|apply str_of_Z_digits].
  cbn. apply str_of_Z_digits.
Qed.

(** What [strftime('%Y%m%d')] prints is made of digits and does not start
    a path of its own. *)
Lemma strftime_Ymd_digits (d : datetime) (date : string) :
  strftime_Ymd d = Ok date ->
  str_all is_digit date = true /\ startswith date "/" = false.
Proof.
  unfold strftime_Ymd. destruct (year d <? 1900)%Z; [discriminate|].
  intros [= <-]. split.
  - now rewrite !str_all_app, str_of_Z_digits, !pad2_digits.
  - pose proof (str_of_Z_digits (year d)) as Hd.
    pose proof (str_of_Z_nonempty (year d)) as Hn.
    destruct (str_of_Z (year d)) as [|c y]; [contradiction|].
    cbn in Hd. apply andb_prop in Hd as [Hc _].
    unfold startswith. clear Hn.
    destruct c as [[] [] [] [] [] [] [] []]; try discriminate Hc; reflexivity.
Qed.

Lemma endswith_slash_app (a b : string) :
  b <> "" -> endswith_slash (a ++ b) = endswith_slash b.
Proof.
  intros Hb. induction a as [|c a IH]; [reflexivity|].
  cbn [String.append endswith_slash].
  destruct (a ++ b) eqn:E; [|exact IH].
  destruct a; cbn in E; [contradiction|discriminate].
Qed.

Lemma join2_relative (a b : string) :
  a <> "" -> endswith_slash a = false -> startswith b "/" = false ->
  join2 a b = a ++ "/" ++ b.
Proof.
  intros Ha Hs Hb. unfold join2. rewrite Hb, Hs.
  destruct (String.eqb_spec a ""); [contradiction|reflexivity].
Qed.

(** X17: For a base path and a language code that are not empty, do not end
    in a slash and, for the code, do not start with one, the download
    directory is [<base>/<language>/<date>], the date being the resolved
    date printed in digits. *)
Theorem download_directory_layout `{UrlLib} (self : WPDownloader)
  (language path dir : string) (w w' : World) :
  _download_directory self language path w = (Ok dir, w') ->
  path <> "" -> endswith_slash path = false ->
  language <> "" -> endswith_slash language = false ->
  startswith language "/" = false ->
  exists latest date,
    latest_dump_date (_urlhandler self) language w = (Ok latest, w')
    /\ strftime_Ymd latest = Ok date
    /\ str_all is_digit date = true
    /\ dir = path ++ "/" ++ language ++ "/" ++ date.
Proof.
  intros Hd Hp Hps Hl Hls Hlr. unfold _download_directory in Hd.
  unfold bind at 1 in Hd.
  destruct (latest_dump_date (_urlhandler self) language w)
    as [[latest|e|] w1]; try discriminate.
  unfold bind, lift in Hd.
  destruct (strftime_Ymd latest) as [date|e|] eqn:Hs; try discriminate.
  unfold ret in Hd. injection Hd as <- <-.
  destruct (strftime_Ymd_digits _ _ Hs) as [Hdig Hrel].
  exists latest, date. repeat split; auto.
  unfold os_path_join. cbn [fold_left].
  rewrite (join2_relative path language Hp Hps Hlr).
  rewrite join2_relative; auto.
  - now rewrite !append_assoc.
  - destruct path; [contradiction|discriminate].
  - rewrite endswith_slash_app.
    + change ("/" ++ language) with (String "/" language).
      cbn [endswith_slash]. destruct language; [contradiction|exact Hls].
    + discriminate.
Qed.

Lemma download_directory_layout_witness :
  exists latest date,
    latest_dump_date (sample_handler two_files sample_options) "en" sample_world
    = (Ok latest,
       mkWorld ∅ ∅ (sample_server sample_listing "5" "hello") 1 [])
    /\ strftime_Ymd latest = Ok date
    /\ str_all is_digit date = true
    /\ "/data/en/20230201" = "/data" ++ "/" ++ "en" ++ "/" ++ date.
Proof.
  apply (download_directory_layout (sample_downloader two_files sample_options)
           "en" "/data" "/data/en/20230201" sample_world);
    try discriminate; try (vm_compute; reflexivity).
Defined.

(** ** A file type without extension *)

(** X18: For a language other than [entities], a file type that has no entry
    in the section [Filetypes] ends the sequence of URLs with the error of
    the look-up, after the URLs of the file types before it; the file
    types after it are never reached. *)
Theorem yield_urls_missing_filetype `{UrlLib} (self : URLHandler)
  (language dir : string) (latest : datetime) (before after : list string)
  (urls : list string) (f : string) (e : exn) :
  String.eqb language "entities" = false ->
  language_dir self language = Ok dir ->
  (1900 <= year latest)%Z ->
  Forall2 (fun g u => file_url self language latest g = Ok u) before urls ->
  get (uh_config self) "Filetypes" f = Raise e ->
  yield_urls self language latest (before ++ f :: after)%list
  = mkGen (List.map Some urls) (Raise e).
Proof.
  intros Hl Hdir Hy Hb He.
  assert (Hf : file_url self language latest f = Raise e).
  { unfold file_url, server_path. rewrite Hl, Hdir. cbn [obind].
    unfold strftime_Ymd.
    replace (year latest <? 1900)%Z with false by (symmetry; apply Z.ltb_ge; lia).
    cbn [obind]. rewrite He. reflexivity. }
  induction Hb as [|g u before urls Hg _ IH].
  - cbn [app yield_urls]. rewrite Hf. reflexivity.
  - cbn [app yield_urls List.map]. rewrite Hg, IH. reflexivity.
Qed.

Lemma yield_urls_missing_filetype_witness :
  yield_urls (sample_handler no_filetype_config sample_options) "en"
    (mkdate 2023 2 1) (["abstract"] ++ "langlinks" :: ["pages-articles"])%list
  = mkGen (List.map Some [abstract_url])
      (Raise (NoOptionError "langlinks" "Filetypes")).
Proof.
  apply (yield_urls_missing_filetype
           (sample_handler no_filetype_config sample_options) "en" "enwiki").
  - reflexivity.
  - reflexivity.
  - cbn. lia.
  - repeat constructor.
  - reflexivity.
Defined.

(** ** The order in which languages and files are processed *)

#[local] Instance no_start_preorder : PreOrder no_start.
Proof.
  split; [intros w; reflexivity|].
  intros a b c Hab Hbc. unfold no_start in *. congruence.
Qed.

Lemma no_start_same_log {A} (m : M A) :
  (forall w, log (snd (m w)) = log w) -> respects no_start m.
Proof. intros Hm w. unfold no_start. now rewrite Hm. Qed.

Lemma no_start_LOG (lvl : Level) (msg : string) (args : list LogArg) :
  String.eqb msg processing_msg = false ->
  respects no_start (LOG lvl msg args).
Proof.
  intros Hmsg w. unfold no_start, LOG, processing_records. cbn [snd log].
  rewrite List.filter_app. cbn [List.filter logmsg]. rewrite Hmsg.
  apply app_nil_r.
Qed.

Lemma no_start_urlopen (rq : Request) : respects no_start (urlopen rq).
Proof.
  apply no_start_same_log. intros w. unfold urlopen.
  destruct (net w (conns w) rq); reflexivity.
Qed.

Lemma no_start_getsize (p : string) : respects no_start (os_path_getsize p).
Proof.
  apply no_start_same_log. intros w. unfold os_path_getsize.
  destruct (fs w !! p) as [[d|sz]|]; reflexivity.
Qed.

Lemma no_start_mkdir (p : string) : respects no_start (os_mkdir p).
Proof.
  apply no_start_same_log. intros w. unfold os_mkdir.
  destruct (bool_decide (p ∈ refused w)); [reflexivity|].
  destruct (os_path_exists p w); [reflexivity|].
  destruct (parent_error p w); reflexivity.
Qed.

Lemma no_start_makedirs (p : string) : respects no_start (os_makedirs p).
Proof.
  unfold os_makedirs. generalize (rev (ancestors p)). intros above. revert p.
  induction above as [|head more IH]; intros p; cbn [makedirs_from].
  - apply no_start_mkdir.
  - apply (respects_bind no_start); [|intros _; apply no_start_mkdir].
    intros w. destruct (negb (os_path_exists head w)); [|reflexivity].
    apply (respects_try_except no_start); [apply IH|].
    intros e h. unfold makedirs_except. destruct e; try discriminate.
    destruct (String.eqb msg "File exists"); [|discriminate].
    intros [= <-]. apply (respects_ret no_start).
Qed.

Lemma no_start_open_append (p : string) : respects no_start (open_append p).
Proof.
  apply no_start_same_log. intros w. unfold open_append.
  destruct (fs w !! p) as [[d|sz]|]; try reflexivity.
  destruct (parent_error p w); reflexivity.
Qed.

Lemma no_start_file_write (p block : string) :
  respects no_start (file_write p block).
Proof.
  apply no_start_same_log. intros w. unfold file_write.
  destruct (fs w !! p) as [[d|sz]|]; reflexivity.
Qed.

Lemma no_start_rename (src dst : string) : respects no_start (os_rename src dst).
Proof.
  apply no_start_same_log. intros w. unfold os_rename.
  destruct (fs w !! src); [|reflexivity].
  destruct (String.eqb src dst); [reflexivity|].
  destruct (fs w !! dst) as [[d|sz]|]; reflexivity.
Qed.

Create HintDb starts.

#[local] Hint Resolve no_start_urlopen no_start_getsize no_start_makedirs
  no_start_open_append no_start_file_write no_start_rename : starts.

(** Proves that a computation starts no language, following its
    structure; what is known of its parts is taken from [starts]. *)
Ltac no_start :=
  repeat first
    [ apply (respects_ret no_start)
    | apply (respects_raise no_start)
    | apply (respects_lift no_start)
    | apply no_start_LOG; reflexivity
    | solve [auto with starts]
    | apply (respects_bind no_start); [|intros ?]
    | match goal with
      | |- respects no_start (if ?c then _ else _) => destruct c
      | |- respects no_start (match ?c with _ => _ end) => destruct c
      end ].

Lemma no_start_remote_content_length (self : WPDownloader) (url : string) :
  respects no_start (_remote_content_length self url).
Proof. unfold _remote_content_length. no_start. Qed.

#[local] Hint Resolve no_start_remote_content_length : starts.

Lemma no_start_should_skip_url (self : WPDownloader) (url p : string) :
  respects no_start (_should_skip_url self url p).
Proof.
  unfold _should_skip_url.
  apply (respects_if no_start (os_path_exists p)); no_start.
Qed.

Lemma no_start_offset (self : WPDownloader) (url p : string) :
  respects no_start (_offset self url p).
Proof.
  unfold _offset.
  apply (respects_if no_start
           (fun w => resume (_options self) && os_path_exists p w)); no_start.
Qed.

Lemma no_start_copy_blocks (p : string) (cl read : Z) (rs : list (exn + string)) :
  respects no_start (copy_blocks p cl read rs).
Proof.
  revert read. induction rs as [|[e|b] rs IH]; intros read; cbn [copy_blocks];
    no_start; apply IH.
Qed.

#[local] Hint Resolve no_start_should_skip_url no_start_offset
  no_start_copy_blocks : starts.

Lemma no_start_retrieve (self : WPDownloader) (url p : string) :
  respects no_start (retrieve self url p).
Proof. unfold retrieve. no_start. Qed.

#[local] Hint Resolve no_start_retrieve : starts.

Lemma no_start_attempt (self : WPDownloader) (url p : string) :
  respects no_start (attempt self url p).
Proof.
  unfold attempt. apply (respects_try_except no_start); [no_start|].
  intros e h. unfold retrieve_file_except.
  destruct (is_socket_error e);
    [|destruct (is_IOError e); [|destruct (is_DownloadError e)]];
    try discriminate; intros [= <-]; no_start.
Qed.

#[local] Hint Resolve no_start_attempt : starts.

Lemma no_start_retrieve_file (fuel : nat) (self : WPDownloader)
  (url p : string) :
  respects no_start (retrieve_file fuel self url p).
Proof.
  unfold retrieve_file. generalize 0%Z as tries. generalize (p ++ ".part") as q.
  induction fuel as [|fuel IH]; intros q tries; cbn [retrieve_file_loop];
    no_start; apply IH.
Qed.

#[local] Hint Resolve no_start_retrieve_file : starts.

Lemma no_start_retrieve_each (fuel : nat) (self : WPDownloader)
  (urls : list (option string)) (ending : Outcome unit) (p : string) :
  respects no_start (retrieve_each fuel self urls ending p).
Proof.
  induction urls as [|[url|] urls IH]; cbn [retrieve_each]; no_start.
  apply (respects_try_except no_start); [no_start|].
  intros e h. destruct (is_DownloadError e); [|discriminate].
  intros [= <-]. no_start.
Qed.

#[local] Hint Resolve no_start_retrieve_each : starts.

Lemma no_start_latest_dump_date `{UrlLib} (self : URLHandler) (language : string) :
  respects no_start (latest_dump_date self language).
Proof.
  unfold latest_dump_date. no_start.
  unfold dump_dates. apply (respects_try_except no_start); [no_start|].
  intros e h. destruct (is_IOError e); [|discriminate]. intros [= <-].
  no_start.
Qed.

#[local] Hint Resolve no_start_latest_dump_date : starts.

Lemma no_start_download_directory `{UrlLib} (self : WPDownloader)
  (language path : string) :
  respects no_start (_download_directory self language path).
Proof. unfold _download_directory. no_start. Qed.

#[local] Hint Resolve no_start_download_directory : starts.

Lemma no_start_create_download_dirs `{UrlLib} (self : WPDownloader)
  (language path : string) :
  respects no_start (_create_download_dirs self language path).
Proof.
  unfold _create_download_dirs. no_start.
  match goal with d : string |- _ =>
    apply (respects_if no_start (fun w => negb (os_path_exists d w)))
  end; no_start.
Qed.

Lemma no_start_urls_for_language `{UrlLib} (self : URLHandler) (language : string) :
  respects no_start (urls_for_language self language).
Proof.
  intros w. unfold urls_for_language.
  pose proof (no_start_latest_dump_date self language w) as Hd.
  destruct (latest_dump_date self language w) as [[latest|e|] w1];
    cbn [snd] in Hd; [| |exact Hd].
  - destruct (year latest <? 1900)%Z; [exact Hd|].
    pose proof (no_start_LOG INFO "Latest dump for (%s) is from %s"
                  [AStr language; ATime "%A %d %B %Y" latest] eq_refl w1) as Hl.
    destruct (LOG INFO _ _ w1) as [o w2]. cbn [snd] in Hl.
    destruct (enabled_files (uh_config self)); cbn [snd];
      (etransitivity; [exact Hd|exact Hl]).
  - destruct (is_IOError e); [|exact Hd].
    assert (Hl : respects no_start
                   (LOG ERROR "Could not get dump date for %s!" [AStr language];;
                    LOG ERROR "Skip: %s" [AStr language];;
                    LOG ERROR "%s" [AExn e])) by no_start.
    specialize (Hl w1).
    destruct ((LOG ERROR _ _;; LOG ERROR _ _;; LOG ERROR _ _) w1) as [o w2].
    cbn [snd] in *. etransitivity; [exact Hd|exact Hl].
Qed.

#[local] Hint Resolve no_start_create_download_dirs
  no_start_urls_for_language : starts.





